(** * Chat-With-Database: a shallow embedding of [app.py]

    The program is a Streamlit script in three classes.  [DatabaseConnector]
    opens a database handle from five credentials, [SQLAssistant] asks a
    hosted model for a SQL statement, runs it and asks the model again to
    narrate the result, and [ChatApp] holds the session (the handle and the
    message log) and drives the other two.

    Everything the script does not implement itself (the database, the
    model service, the browser) is kept behind the interface [Externals];
    the script is written in a state-and-exception monad that threads the
    session, the state of that outside world and a chronological log of
    every external call and every Streamlit call the script performs. *)

From Stdlib Require Import Ascii.
From stdpp Require Import base option list gmap strings.

Set Default Proof Using "Type".

(** ** Values of the program *)

(** [langchain.schema]: the two message classes the program builds. *)
Inductive Message : Type :=
  | AIMessage (content : string)
  | HumanMessage (content : string).

Definition content_of (m : Message) : string :=
  match m with AIMessage c => c | HumanMessage c => c end.

(** An exception object deriving from Python's [Exception]; [msg] is what
    [str(e)] yields.  Every failure of a library call is of this kind. *)
Inductive exn : Type := Exception (msg : string).

Definition str_of_exn (e : exn) : string := match e with Exception m => m end.

Definition KeyError (key : string) : exn := Exception ("'" +:+ key +:+ "'").
Definition AttributeError (name : string) : exn :=
  Exception ("st.session_state has no attribute '" +:+ name +:+ "'").
Definition TypeError (what : string) : exn := Exception what.

(** The outcome of a Python call: a value, or a raised exception. *)
Inductive result (A : Type) : Type :=
  | Ok (a : A)
  | Raise (e : exn).
Arguments Ok {A} a.
Arguments Raise {A} e.

Definition is_raise {A} (r : result A) : bool :=
  match r with Ok _ => false | Raise _ => true end.

(** The values that travel through the LCEL chains in a [dict]: strings and
    the message list. *)
Inductive pyval : Type :=
  | PStr (s : string)
  | PMessages (l : list Message).

Abbreviation dict := (gmap string pyval).

(** A formatted prompt: the template text and the value bound to each of
    its placeholders. *)
Record ChatPromptValue : Type := mkPrompt {
  pv_template : string;
  pv_vars : dict
}.

(** The model client: [ChatGoogleGenerativeAI(model=..., google_api_key=...)]. *)
Record ChatGoogleGenerativeAI : Type := mkLLM {
  model : string;
  google_api_key : option string
}.

(** ** The outside world *)

(** The libraries and services the script calls.  [outside] is the state of
    everything beyond the process (database servers, the model service);
    each call may change it and may raise. *)
Class Externals : Type := {
  SQLDatabase : Type;
  outside : Type;
  (** [SQLDatabase.from_uri(db_uri)] *)
  from_uri : string -> outside -> result SQLDatabase * outside;
  (** [db.get_table_info()] *)
  get_table_info : SQLDatabase -> outside -> result string * outside;
  (** [db.run(sql)] *)
  db_run : SQLDatabase -> string -> outside -> result string * outside;
  (** one round trip to the hosted model; the text of the reply *)
  llm_invoke : ChatGoogleGenerativeAI -> ChatPromptValue -> outside -> result string * outside;
  (** [os.getenv(name)] once [load_dotenv()] has run *)
  os_getenv : string -> outside -> option string;
  (** what the constructor [ChatGoogleGenerativeAI(model=..., google_api_key=...)]
      raises for these arguments in this environment, if it raises *)
  client_error : ChatGoogleGenerativeAI -> outside -> option exn;
  (** the [KeyError] a prompt template raises when its input lacks some of
      the variables it expects: from the expected variables and the input *)
  prompt_key_error : list string -> dict -> exn
}.

(** What the browser sends with one rerun of the script. *)
Record Interaction : Type := mkInteraction {
  (** text the user has put in a sidebar field, by widget key *)
  typed : gmap string string;
  (** the run was triggered by the Connect button *)
  connect_clicked : bool;
  (** what [st.chat_input] returns *)
  chat_input : option string
}.

(** The Streamlit calls of the script. *)
Inductive st_call : Type :=
  | st_set_page_config (page_title page_icon : string)
  | st_title (body : string)
  | st_sidebar_subheader (body : string)
  | st_sidebar_text_input (label value key : string) (password : bool)
  | st_sidebar_button (label : string)
  | st_spinner (text : string)
  | st_success (body : string)
  | st_error (body : string)
  | st_markdown (body : string)
  | st_write (body : string)
  | st_chat_message (name : string)
  | st_chat_input (placeholder : string).

Section App.
Context `{Ext : Externals}.

(** One entry of the log: an external call with its outcome, or a
    Streamlit call. *)
Inductive event : Type :=
  | EFromUri (uri : string) (r : result SQLDatabase)
  | EGetTableInfo (db : SQLDatabase) (r : result string)
  | ERun (db : SQLDatabase) (sql : string) (r : result string)
  | EModel (llm : ChatGoogleGenerativeAI) (p : ChatPromptValue) (r : result string)
  | EUi (c : st_call).

(** [st.session_state].  A field is [None] while its key is absent.  The
    two entries the script reaches as attributes are typed; the entries
    created by the keyed sidebar widgets are a map from key to text. *)
Record SessionState : Type := mkSession {
  chat_history : option (list Message);
  db : option (option SQLDatabase);
  widgets : gmap string string
}.

Record State : Type := mkState {
  session_state : SessionState;
  browser : Interaction;
  world : outside;
  log : list event
}.

(** ** The monad of the script *)

Definition M (A : Type) : Type := State -> result A * State.

Definition ret {A} (a : A) : M A := fun s => (Ok a, s).

Definition bind {A B} (m : M A) (k : A -> M B) : M B :=
  fun s =>
    match m s with
    | (Ok a, s') => k a s'
    | (Raise e, s') => (Raise e, s')
    end.

Definition raise {A} (e : exn) : M A := fun s => (Raise e, s).

(** [try: body  except Exception as e: handler e] *)
Definition try_except {A} (body : M A) (handler : exn -> M A) : M A :=
  fun s =>
    match body s with
    | (Ok a, s') => (Ok a, s')
    | (Raise e, s') => handler e s'
    end.

#[local] Instance M_ret : MRet M := @ret.
#[local] Instance M_bind : MBind M := fun A B k m => bind m k.
#[local] Instance M_fmap : FMap M := fun A B f m => bind m (fun a => ret (f a)).

Definition gets {A} (f : State -> A) : M A := fun s => (Ok (f s), s).

Definition emit (e : event) : M unit :=
  fun s => (Ok tt, mkState (session_state s) (browser s) (world s) (log s ++ [e])).

Definition set_session (f : SessionState -> SessionState) : M unit :=
  fun s => (Ok tt, mkState (f (session_state s)) (browser s) (world s) (log s)).

(** An external call: the outside world answers and moves on, and the call
    is logged with its outcome. *)
Definition external {A} (call : outside -> result A * outside)
    (ev : result A -> event) : M A :=
  fun s =>
    let (r, w) := call (world s) in
    (r, mkState (session_state s) (browser s) w (log s ++ [ev r])).

Definition st (c : st_call) : M unit := emit (EUi c).

(** ** LCEL: runnables and their composition *)

Definition Runnable (A B : Type) : Type := A -> M B.

(** [first | second] *)
Definition pipe {A B C} (first : Runnable A B) (second : Runnable B C) : Runnable A C :=
  fun input => b ← first input; second b.

Notation "first |> second" := (pipe first second) (at level 56, left associativity).

(** [RunnableParallel]: every step is submitted with the same input and
    the outputs are collected in key order, so every step runs even when
    an earlier one raises, and the exception of the first failing key is
    the one re-raised. *)
Fixpoint RunnableParallel (steps : list (string * Runnable dict pyval)) : Runnable dict dict :=
  fun input =>
    match steps with
    | [] => ret ∅
    | (key, step) :: rest =>
        fun s =>
          let (r1, s1) := step input s in
          let (r2, s2) := RunnableParallel rest input s1 in
          (match r1, r2 with
           | Raise e, _ => Raise e
           | Ok _, Raise e => Raise e
           | Ok v, Ok out => Ok (<[key:=v]> out)
           end, s2)
    end.

(** [RunnablePassthrough.assign(key=step, ...)]: the input extended (and
    overridden) by the outputs of the steps. *)
Definition assign (steps : list (string * Runnable dict pyval)) : Runnable dict dict :=
  fun input => out ← RunnableParallel steps input; mret (out ∪ input).

(** The placeholders [{name}] of a template, in order of appearance.
    [acc] is [Some] of the reversed name read so far while inside braces. *)
Fixpoint placeholders_from (acc : option string) (t : string) : list string :=
  match t with
  | EmptyString => []
  | String c rest =>
      match acc with
      | None =>
          if Ascii.eqb c "{"%char then placeholders_from (Some "") rest
          else placeholders_from None rest
      | Some name =>
          if Ascii.eqb c "}"%char then String.rev name :: placeholders_from None rest
          else placeholders_from (Some (String c name)) rest
      end
  end.

(** [sorted(set(names))]: ascending, without repetitions. *)
Fixpoint insert_sorted (name : string) (names : list string) : list string :=
  match names with
  | [] => [name]
  | x :: rest =>
      match String.compare name x with
      | Lt => name :: names
      | Eq => names
      | Gt => x :: insert_sorted name rest
      end
  end.

Definition sorted_set (names : list string) : list string :=
  foldr insert_sorted [] names.

Record ChatPromptTemplate : Type := mkTemplate {
  template : string;
  input_variables : list string
}.

(** [ChatPromptTemplate.from_template(template)]: the input variables are
    the placeholders of the template, sorted. *)
Definition from_template (t : string) : ChatPromptTemplate :=
  mkTemplate t (sorted_set (placeholders_from None t)).

(** The variables of the template that the input lacks. *)
Fixpoint missing_variables (vars : list string) (input : dict) : list string :=
  match vars with
  | [] => []
  | key :: rest =>
      match input !! key with
      | None => key :: missing_variables rest input
      | Some _ => missing_variables rest input
      end
  end.

(** The values the input gives to the variables of the template. *)
Fixpoint bind_variables (vars : list string) (input : dict) : dict :=
  match vars with
  | [] => ∅
  | key :: rest =>
      match input !! key with
      | Some v => <[key:=v]> (bind_variables rest input)
      | None => bind_variables rest input
      end
  end.

(** Formatting a prompt: a [KeyError] when a variable is missing, else the
    template with the values of its variables. *)
Definition prompt_invoke (p : ChatPromptTemplate) : Runnable dict ChatPromptValue :=
  fun input =>
    match missing_variables (input_variables p) input with
    | [] => mret (mkPrompt (template p) (bind_variables (input_variables p) input))
    | _ :: _ => raise (prompt_key_error (input_variables p) input)
    end.

(** The model as a runnable: the reply comes back as an [AIMessage]. *)
Definition llm_runnable (llm : ChatGoogleGenerativeAI) : Runnable ChatPromptValue Message :=
  fun p => text ← external (llm_invoke llm p) (EModel llm p); mret (AIMessage text).

Definition StrOutputParser : Runnable Message string :=
  fun m => mret (content_of m).

(** The two methods of a handle, as calls of the script. *)
Definition db_get_table_info (d : SQLDatabase) : M string :=
  external (get_table_info d) (EGetTableInfo d).

Definition db_run_sql (d : SQLDatabase) (sql : string) : M string :=
  external (db_run d sql) (ERun d sql).

(** [vars[key]] where a string is expected *)
Definition item_str (vars : dict) (key : string) : M string :=
  match vars !! key with
  | Some (PStr s) => mret s
  | Some (PMessages _) => raise (TypeError "expected str")
  | None => raise (KeyError key)
  end.

(** ** class SQLAssistant *)

Record SQLAssistant : Type := mkAssistant {
  gemini_api_key : option string
}.

Definition sql_template : string :=
  "
        You are a data analyst at a company. You are interacting with a user who is asking you questions about the company's database.
        Based on the table schema below, write a SQL query that would answer the user's question. Take the conversation history into account.
        
        <SCHEMA>{schema}</SCHEMA>
        
        Conversation History: {chat_history}
        
        Write only the SQL query and nothing else. Do not wrap the SQL query in any other text, not even backticks.
        ".

Definition response_template : string :=
  "
        You are a data analyst at a company. You are interacting with a user who is asking you questions about the company's database.
        Based on the table schema below, question, SQL query, and SQL response, write a natural language response.
        <SCHEMA>{schema}</SCHEMA>

        Conversation History: {chat_history}
        SQL Query: <SQL>{query}</SQL>
        User question: {question}
        SQL Response: {response}
        ".

Definition error_message : string :=
  "An error occurred while processing your request. " +:+
  "This could be due to hitting the API limit or other issues. Please try again later.".

(** [ChatGoogleGenerativeAI(model=..., google_api_key=...)]: the
    constructor raises when it finds no usable credentials. *)
Definition ChatGoogleGenerativeAI_init (model : string) (google_api_key : option string)
    : M ChatGoogleGenerativeAI :=
  fun s =>
    match client_error (mkLLM model google_api_key) (world s) with
    | Some e => (Raise e, s)
    | None => (Ok (mkLLM model google_api_key), s)
    end.

Definition get_sql_chain (self : SQLAssistant) (d : SQLDatabase)
    : M (Runnable dict string) :=
  let prompt := from_template sql_template in
  llm ← ChatGoogleGenerativeAI_init "gemini-1.5-pro" (gemini_api_key self);
  let get_schema : Runnable dict pyval := fun _ => PStr <$> db_get_table_info d in
  mret (assign [("schema", get_schema)]
        |> prompt_invoke prompt
        |> llm_runnable llm
        |> StrOutputParser).

Definition chain_input (user_query : string) (history : list Message) : dict :=
  <["question" := PStr user_query]> (<["chat_history" := PMessages history]> ∅).

(** The SQL chain, the second prompt, the second client and the chain are
    built first; only the invocation of the chain is inside the [try]. *)
Definition generate_response (self : SQLAssistant) (user_query : string)
    (d : SQLDatabase) (history : list Message) : M string :=
  sql_chain ← get_sql_chain self d;
  let prompt := from_template response_template in
  llm ← ChatGoogleGenerativeAI_init "gemini-1.5-pro" (gemini_api_key self);
  let chain :=
    assign [("query", fun input => PStr <$> sql_chain input)]
    |> assign [("schema", fun _ => PStr <$> db_get_table_info d);
               ("response", fun vars => query ← item_str vars "query";
                                        PStr <$> db_run_sql d query)]
    |> prompt_invoke prompt
    |> llm_runnable llm
    |> StrOutputParser in
  try_except
    (chain (chain_input user_query history))
    (fun e => st (st_error error_message);; mret error_message).

(** ** class DatabaseConnector *)

Record DatabaseConnector : Type := mkConnector {
  connector_db : option SQLDatabase
}.

Definition DatabaseConnector_init : DatabaseConnector := mkConnector None.

(** [connect] assigns [self.db] and returns the handle; the updated
    [self] is returned next to it. *)
Definition connect (self : DatabaseConnector)
    (user password host port database : string) : M (DatabaseConnector * SQLDatabase) :=
  let db_uri :=
    "mysql+mysqlconnector://" +:+ user +:+ ":" +:+ password +:+ "@" +:+ host
      +:+ ":" +:+ port +:+ "/" +:+ database in
  handle ← external (from_uri db_uri) (EFromUri db_uri);
  mret (mkConnector (Some handle), handle).

(** ** class ChatApp *)

Record ChatApp : Type := mkApp {
  app_gemini_api_key : option string;
  db_connector : DatabaseConnector;
  sql_assistant : SQLAssistant
}.

Definition greeting : string :=
  "Hello! I'm SQL assistant. Ask me anything about your database.".

(** Reads and writes of [st.session_state]. *)
Definition session_chat_history : M (list Message) :=
  ss ← gets session_state;
  match chat_history ss with
  | Some history => mret history
  | None => raise (AttributeError "chat_history")
  end.

Definition session_db : M (option SQLDatabase) :=
  ss ← gets session_state;
  match db ss with
  | Some d => mret d
  | None => raise (AttributeError "db")
  end.

Definition session_item (key : string) : M string :=
  ss ← gets session_state;
  match widgets ss !! key with
  | Some v => mret v
  | None => raise (KeyError key)
  end.

Definition set_chat_history (history : list Message) : M unit :=
  set_session (fun ss => mkSession (Some history) (db ss) (widgets ss)).

Definition set_db (d : option SQLDatabase) : M unit :=
  set_session (fun ss => mkSession (chat_history ss) (Some d) (widgets ss)).

(** [st.session_state.chat_history.append(message)] *)
Definition append_history (message : Message) : M unit :=
  history ← session_chat_history;
  set_chat_history (history ++ [message]).

Definition init_session_state : M unit :=
  ss ← gets session_state;
  (match chat_history ss with
   | None => set_chat_history [AIMessage greeting]
   | Some _ => mret tt
   end);;
  ss ← gets session_state;
  match db ss with
  | None => set_db None
  | Some _ => mret tt
  end.

Definition ChatApp_init : M ChatApp :=
  key ← gets (fun s => os_getenv "GEMINI_API_KEY" (world s));
  let self := mkApp key DatabaseConnector_init (mkAssistant key) in
  init_session_state;;
  mret self.

(** A keyed sidebar field: it shows what the user typed in this run, else
    what the session already holds under the key, else the default, and
    stores it under the key. *)
Definition sidebar_text_input (label value key : string) (password : bool) : M string :=
  st (st_sidebar_text_input label value key password);;
  i ← gets browser;
  ss ← gets session_state;
  let current :=
    match typed i !! key with
    | Some v => v
    | None => default value (widgets ss !! key)
    end in
  set_session (fun ss => mkSession (chat_history ss) (db ss) (<[key:=current]> (widgets ss)));;
  mret current.

Definition sidebar_button (label : string) : M bool :=
  st (st_sidebar_button label);;
  gets (fun s => connect_clicked (browser s)).

Definition sidebar (self : ChatApp) : M ChatApp :=
  st (st_sidebar_subheader "Settings");;
  sidebar_text_input "Host" "localhost" "Host" false;;
  sidebar_text_input "Port" "3306" "Port" false;;
  sidebar_text_input "User" "root" "User" false;;
  sidebar_text_input "Password" "admin" "Password" true;;
  sidebar_text_input "Database" "chinook" "Database" false;;
  clicked ← sidebar_button "Connect";
  if clicked : bool then
    st (st_spinner "Connecting to database...");;
    try_except
      (user ← session_item "User";
       password ← session_item "Password";
       host ← session_item "Host";
       port ← session_item "Port";
       database ← session_item "Database";
       opened ← connect (db_connector self) user password host port database;
       set_db (Some opened.2);;
       st (st_success "Connected to the database!");;
       mret (mkApp (app_gemini_api_key self) opened.1 (sql_assistant self)))
      (fun e =>
         st (st_error ("Failed to connect: " +:+ str_of_exn e));;
         mret self)
  else mret self.

Fixpoint for_each {A} (l : list A) (body : A -> M unit) : M unit :=
  match l with
  | [] => mret tt
  | x :: rest => body x;; for_each rest body
  end.

Definition display_chat_history : M unit :=
  history ← session_chat_history;
  for_each history (fun message =>
    match message with
    | AIMessage c => st (st_chat_message "AI");; st (st_markdown c)
    | HumanMessage c => st (st_chat_message "Human");; st (st_write c)
    end).

(** Python truthiness of what [st.chat_input] returns: [None] and the
    empty string are falsy. *)
Definition truthy (user_query : option string) : bool :=
  match user_query with
  | Some (String _ _) => true
  | _ => false
  end.

Definition handle_user_query (self : ChatApp) : M unit :=
  st (st_chat_input "Type a message...");;
  user_query ← gets (fun s => chat_input (browser s));
  if truthy user_query then
    let q := default "" user_query in
    append_history (HumanMessage q);;
    st (st_chat_message "Human");;
    st (st_markdown q);;
    st (st_chat_message "AI");;
    handle ← session_db;
    match handle with
    | Some d =>
        history ← session_chat_history;
        response ← generate_response (sql_assistant self) q d history;
        st (st_markdown response);;
        append_history (AIMessage response)
    | None =>
        st (st_error "Database not connected. Please connect to the database first.")
    end
  else mret tt.

Definition run (self : ChatApp) : M unit :=
  st (st_set_page_config "Chat with Database" ":speech_balloon:");;
  st (st_title "Chat with Database");;
  self ← sidebar self;
  display_chat_history;;
  handle_user_query self.

(** The script: [app = ChatApp(); app.run()]. *)
Definition main : M unit :=
  app ← ChatApp_init;
  run app.

(** ** Sessions *)

(** Streamlit executes the whole script once per interaction; the session
    state survives from one run to the next. *)
Definition rerun (i : Interaction) (s : State) : State :=
  (main (mkState (session_state s) i (world s) (log s))).2.

Fixpoint session (interactions : list Interaction) (s : State) : State :=
  match interactions with
  | [] => s
  | i :: rest => session rest (rerun i s)
  end.

(** A new browser session: no key in the session state, nothing logged. *)
Definition new_session (w : outside) : State :=
  mkState (mkSession None None ∅) (mkInteraction ∅ false None) w [].

End App.

(** ** A scripted outside world

    An instance of [Externals] whose replies are read off queues, one
    queue per kind of call; a call that finds its queue empty raises.  It
    is what the concrete runs below execute against. *)
Module Scripted.

Record replies : Type := mkReplies {
  connects : list (result nat);
  schemas : list (result string);
  executions : list (result string);
  completions : list (result string);
  api_key : option string
}.

Definition no_reply {A} : result A := Raise (Exception "no reply scripted").

Definition next_connect (w : replies) : result nat * replies :=
  (default no_reply (head (connects w)),
   mkReplies (tail (connects w)) (schemas w) (executions w) (completions w) (api_key w)).

Definition next_schema (w : replies) : result string * replies :=
  (default no_reply (head (schemas w)),
   mkReplies (connects w) (tail (schemas w)) (executions w) (completions w) (api_key w)).

Definition next_execution (w : replies) : result string * replies :=
  (default no_reply (head (executions w)),
   mkReplies (connects w) (schemas w) (tail (executions w)) (completions w) (api_key w)).

Definition next_completion (w : replies) : result string * replies :=
  (default no_reply (head (completions w)),
   mkReplies (connects w) (schemas w) (executions w) (tail (completions w)) (api_key w)).

#[export] Instance externals : Externals := {|
  SQLDatabase := nat;
  outside := replies;
  from_uri := fun _ => next_connect;
  get_table_info := fun _ => next_schema;
  db_run := fun _ _ => next_execution;
  llm_invoke := fun _ _ => next_completion;
  os_getenv := fun _ w => api_key w;
  client_error := fun llm _ =>
    match google_api_key llm with
    | Some _ => None
    | None => Some (Exception "Your default credentials were not found.")
    end;
  prompt_key_error := fun _ _ =>
    Exception "Input to ChatPromptTemplate is missing variables"
|}.

(** One interaction: submitting a chat message; pressing Connect. *)
Definition ask (q : string) : Interaction := mkInteraction ∅ false (Some q).
Definition press_connect : Interaction := mkInteraction ∅ true None.

(** Replies under which a turn succeeds. *)
Definition table_info : string := "CREATE TABLE album (id INT, title TEXT)".

Definition healthy : outside :=
  mkReplies [Ok 1] [Ok table_info; Ok table_info] [Ok "[(347,)]"]
    [Ok "SELECT COUNT(*) FROM album"; Ok "There are 347 albums."] (Some "key").

(** The model service rejects the first call of the turn. *)
Definition quota_exhausted : outside :=
  mkReplies [Ok 1] [Ok table_info; Ok table_info] [Ok "[(347,)]"]
    [Raise (Exception "429 quota exceeded")] (Some "key").

(** The narration comes back as the empty text. *)
Definition silent_narrator : outside :=
  mkReplies [Ok 1] [Ok table_info; Ok table_info] [Ok "[(347,)]"]
    [Ok "SELECT COUNT(*) FROM album"; Ok ""] (Some "key").

(** The database server cannot be reached. *)
Definition unreachable : outside :=
  mkReplies [Raise (Exception "Can't connect to MySQL server")] [] [] [] (Some "key").

(** No API key is configured: the replies of [healthy], without a key. *)
Definition keyless : outside :=
  mkReplies [Ok 1] [Ok table_info; Ok table_info] [Ok "[(347,)]"]
    [Ok "SELECT COUNT(*) FROM album"; Ok "There are 347 albums."] None.

Definition assistant : SQLAssistant := mkAssistant (Some "key").

Definition keyless_assistant : SQLAssistant := mkAssistant None.

Definition app : ChatApp := mkApp (Some "key") (mkConnector None) assistant.

Definition question : string := "How many albums are there?".

(** The handle every scripted connect opens. *)
Definition handle : @SQLDatabase externals := 1.

Definition seeded : list Message := [AIMessage greeting].

(** A running session: the log of messages [h], the handle [d] if any,
    and the interaction [i] that triggers the next run. *)
Definition running (h : list Message) (d : option SQLDatabase) (i : Interaction)
    (w : outside) : State :=
  mkState (mkSession (Some h) (Some d) ∅) i w [].

End Scripted.

(** ** Observations on the log *)

Section Observations.
Context `{Ext : Externals}.

(** The state [s] after the outside world has moved to [w] and the events
    [evs] have been logged. *)
Definition logged (s : State) (w : outside) (evs : list event) : State :=
  mkState (session_state s) (browser s) w (log s ++ evs).

(** What a computation adds to the log of [s]. *)
Definition events_since (s s' : State) : list event :=
  drop (length (log s)) (log s').

Definition is_schema_fetch (e : event) : bool :=
  match e with EGetTableInfo _ _ => true | _ => false end.

Definition is_model_call (e : event) : bool :=
  match e with EModel _ _ _ => true | _ => false end.

Definition is_execution (e : event) : bool :=
  match e with ERun _ _ _ => true | _ => false end.

(** A call of the Assistant's chain into the outside world. *)
Definition is_assistant_call (e : event) : bool :=
  is_schema_fetch e || is_model_call e || is_execution e.

(** An external call that raised. *)
Definition failed (e : event) : bool :=
  match e with
  | EFromUri _ r => is_raise r
  | EGetTableInfo _ r => is_raise r
  | ERun _ _ r => is_raise r
  | EModel _ _ r => is_raise r
  | EUi _ => false
  end.

Definition count (f : event -> bool) (evs : list event) : nat :=
  length (List.filter f evs).

(** The SQL-generation chain of a turn went through: its model call, the
    second call of the turn, returned a statement. *)
Definition sql_generated (evs : list event) : bool :=
  match evs with
  | _ :: EModel _ _ (Ok _) :: _ => true
  | _ => false
  end.

(** The prompts sent to the model, in order. *)
Definition model_prompts (evs : list event) : list ChatPromptValue :=
  omap (fun e => match e with EModel _ p _ => Some p | _ => None end) evs.

(** The conversation history a prompt carries. *)
Definition prompt_history (p : ChatPromptValue) : option (list Message) :=
  match pv_vars p !! "chat_history" with
  | Some (PMessages h) => Some h
  | _ => None
  end.

(** The client a construction that does not raise yields. *)
Definition gemini (self : SQLAssistant) : ChatGoogleGenerativeAI :=
  mkLLM "gemini-1.5-pro" (gemini_api_key self).

(** The two prompts of a turn, as the chain formats them. *)
Definition sql_prompt (schema : string) (h : list Message) : ChatPromptValue :=
  mkPrompt sql_template
    (<["schema" := PStr schema]> (<["chat_history" := PMessages h]> ∅)).

Definition narration_prompt (schema : string) (h : list Message)
    (sql question response : string) : ChatPromptValue :=
  mkPrompt response_template
    (<["schema" := PStr schema]> (<["chat_history" := PMessages h]>
      (<["query" := PStr sql]> (<["question" := PStr question]>
        (<["response" := PStr response]> ∅))))).

(** The Streamlit calls [handle_user_query] makes for a submitted
    question before it looks at the handle. *)
Definition chat_input_event : event := EUi (st_chat_input "Type a message...").

Definition turn_opening (q : string) : list event :=
  [chat_input_event; EUi (st_chat_message "Human"); EUi (st_markdown q);
   EUi (st_chat_message "AI")].

(** The state in which [handle_user_query] calls the Assistant: the
    question is already in the session's history. *)
Definition before_answer (s : State) (h : list Message) (d : SQLDatabase) (q : string) : State :=
  mkState (mkSession (Some (h ++ [HumanMessage q])) (Some (Some d))
             (widgets (session_state s)))
    (browser s) (world s) (log s ++ turn_opening q).

(** The connection string in the words of the specification:
    [<dialect>://<user>:<password>@<host>:<port>/<database>]. *)
Definition spec_connection_string
    (dialect user password host port database : string) : string :=
  dialect +:+ "://" +:+ user +:+ ":" +:+ password +:+ "@" +:+ host +:+ ":" +:+ port
    +:+ "/" +:+ database.

Definition is_connect (e : event) : bool :=
  match e with EFromUri _ _ => true | _ => false end.

(** What a sidebar field holds in the run that starts in [s]. *)
Definition field (s : State) (key value : string) : string :=
  match typed (browser s) !! key with
  | Some v => v
  | None => default value (widgets (session_state s) !! key)
  end.

(** The widget entries once the five fields are rendered. *)
Definition sidebar_widgets (s : State) : gmap string string :=
  <["Database" := field s "Database" "chinook"]>
    (<["Password" := field s "Password" "admin"]>
      (<["User" := field s "User" "root"]>
        (<["Port" := field s "Port" "3306"]>
          (<["Host" := field s "Host" "localhost"]> (widgets (session_state s)))))).

(** The connection string the Connect action builds from the form. *)
Definition form_uri (s : State) : string :=
  spec_connection_string "mysql+mysqlconnector"
    (field s "User" "root") (field s "Password" "admin")
    (field s "Host" "localhost") (field s "Port" "3306")
    (field s "Database" "chinook").

(** The rendering of the settings form. *)
Definition sidebar_form : list event :=
  [EUi (st_sidebar_subheader "Settings");
   EUi (st_sidebar_text_input "Host" "localhost" "Host" false);
   EUi (st_sidebar_text_input "Port" "3306" "Port" false);
   EUi (st_sidebar_text_input "User" "root" "User" false);
   EUi (st_sidebar_text_input "Password" "admin" "Password" true);
   EUi (st_sidebar_text_input "Database" "chinook" "Database" false);
   EUi (st_sidebar_button "Connect")].

(** The state [s] with the interaction [i] arriving from the browser. *)
Definition arriving (i : Interaction) (s : State) : State :=
  mkState (session_state s) i (world s) (log s).

(** What [display_chat_history] renders for a history. *)
Definition render_history (h : list Message) : list event :=
  flat_map (λ message,
    match message with
    | AIMessage c => [EUi (st_chat_message "AI"); EUi (st_markdown c)]
    | HumanMessage c => [EUi (st_chat_message "Human"); EUi (st_write c)]
    end) h.

(** The head of every run of the script. *)
Definition page_header : list event :=
  [EUi (st_set_page_config "Chat with Database" ":speech_balloon:");
   EUi (st_title "Chat with Database")].

(** The session holds a handle. *)
Definition connected (s : State) : Prop :=
  ∃ d, db (session_state s) = Some (Some d).

(** The questions submitted in a sequence of interactions, in order. *)
Definition questions (interactions : list Interaction) : list string :=
  omap (λ i, if truthy (chat_input i) then chat_input i else None) interactions.

(** The messages of completed turns: each question followed by its
    answer. *)
Fixpoint transcript (qs answers : list string) : list Message :=
  match qs, answers with
  | q :: qs', a :: answers' => HumanMessage q :: AIMessage a :: transcript qs' answers'
  | _, _ => []
  end.

(** The statements handed to [db.run], the texts the model returned, the
    clients the model was called through and the Streamlit calls, each in
    order of occurrence. *)
Definition executed_sql (evs : list event) : list string :=
  omap (λ e, match e with ERun _ sql _ => Some sql | _ => None end) evs.

Definition model_replies (evs : list event) : list string :=
  omap (λ e, match e with EModel _ _ (Ok text) => Some text | _ => None end) evs.

Definition model_clients (evs : list event) : list ChatGoogleGenerativeAI :=
  omap (λ e, match e with EModel llm _ _ => Some llm | _ => None end) evs.

Definition ui_calls (evs : list event) : list st_call :=
  omap (λ e, match e with EUi c => Some c | _ => None end) evs.

(** The role a message is displayed under. *)
Definition role_of (m : Message) : string :=
  match m with AIMessage _ => "AI" | HumanMessage _ => "Human" end.

(** The chat containers opened and the texts written into them. *)
Definition rendered_roles (evs : list event) : list string :=
  omap (λ e, match e with EUi (st_chat_message name) => Some name | _ => None end) evs.

Definition rendered_bodies (evs : list event) : list string :=
  omap (λ e, match e with
             | EUi (st_markdown body) | EUi (st_write body) => Some body
             | _ => None
             end) evs.

(** How the run triggered by [i] in [s] ends. *)
Definition run_result (i : Interaction) (s : State) : result unit :=
  (main (arriving i s)).1.

(** The messages of a conversation in which a question may have stayed
    without a reply: each question, followed by its reply if there is
    one. *)
Fixpoint dialogue (qs : list string) (replies : list (option string)) : list Message :=
  match qs, replies with
  | q :: qs', r :: replies' =>
      HumanMessage q
      :: match r with Some a => [AIMessage a] | None => [] end ++ dialogue qs' replies'
  | _, _ => []
  end.

(** Every message of the interactions is submitted with a handle in the
    session and the run it triggers ends normally. *)
Fixpoint turns_complete (interactions : list Interaction) (s : State) : Prop :=
  match interactions with
  | [] => True
  | i :: rest =>
      (truthy (chat_input i) = true → connected (rerun i s) ∧ run_result i s = Ok tt) ∧
      turns_complete rest (rerun i s)
  end.

End Observations.

(** * Properties *)

Section Facts.
Context `{Ext : Externals}.

Lemma sql_template_variables :
  sorted_set (placeholders_from None sql_template) = ["chat_history"; "schema"].
Proof. vm_compute. reflexivity. Qed.

Lemma response_template_variables :
  sorted_set (placeholders_from None response_template)
  = ["chat_history"; "query"; "question"; "response"; "schema"].
Proof. vm_compute. reflexivity. Qed.

(** Unfolds the monad and the LCEL combinators, leaving the calls into
    the outside world and the operations on dictionaries in place. *)
Ltac run_script :=
  cbv beta iota zeta delta
    [mbind M_bind bind mret M_ret ret fmap M_fmap raise try_except gets emit
     set_session external st pipe RunnableParallel assign prompt_invoke
     llm_runnable StrOutputParser db_get_table_info db_run_sql item_str
     ChatGoogleGenerativeAI_init gemini
     content_of fst snd template input_variables from_template
     session_state browser world log logged].

(** Evaluates the lookups in dictionaries whose keys are literals. *)
Ltac dict_lookup :=
  repeat match goal with
  | |- context [@lookup string pyval (gmap string pyval) _ ?k ?m] =>
      let r := eval vm_compute in (m !! k) in
      change (m !! k) with r
  end.

Lemma sql_prompt_vars (schema history : pyval) :
  (<["chat_history" := history]> (<["schema" := schema]> ∅) : gmap string pyval)
  = <["schema" := schema]> (<["chat_history" := history]> ∅).
Proof. vm_compute. reflexivity. Qed.

Lemma narration_prompt_vars (schema history sql question response : pyval) :
  (<["chat_history" := history]> (<["query" := sql]> (<["question" := question]>
     (<["response" := response]> (<["schema" := schema]> ∅)))) : gmap string pyval)
  = <["schema" := schema]> (<["chat_history" := history]> (<["query" := sql]>
      (<["question" := question]> (<["response" := response]> ∅)))).
Proof. vm_compute. reflexivity. Qed.

(** [generate_response], call by call: the two clients are constructed
    first, and what the chain raises afterwards is caught. *)
Lemma generate_response_run self q d h s :
  generate_response self q d h s =
    match client_error (gemini self) (world s) with
    | Some e => (Raise e, s)
    | None =>
        let llm := gemini self in
        let caught w evs :=
          (Ok error_message, logged s w (evs ++ [EUi (st_error error_message)])) in
        let '(r1, w1) := get_table_info d (world s) in
        let e1 := EGetTableInfo d r1 in
        match r1 with
        | Raise _ => caught w1 [e1]
        | Ok schema1 =>
            let p1 := sql_prompt schema1 h in
            let '(r2, w2) := llm_invoke llm p1 w1 in
            let e2 := EModel llm p1 r2 in
            match r2 with
            | Raise _ => caught w2 [e1; e2]
            | Ok sql =>
                let '(r3, w3) := get_table_info d w2 in
                let e3 := EGetTableInfo d r3 in
                let '(r4, w4) := db_run d sql w3 in
                let e4 := ERun d sql r4 in
                match r3, r4 with
                | Raise _, _ => caught w4 [e1; e2; e3; e4]
                | Ok _, Raise _ => caught w4 [e1; e2; e3; e4]
                | Ok schema2, Ok response =>
                    let p2 := narration_prompt schema2 h sql q response in
                    let '(r5, w5) := llm_invoke llm p2 w4 in
                    let e5 := EModel llm p2 r5 in
                    match r5 with
                    | Ok answer => (Ok answer, logged s w5 [e1; e2; e3; e4; e5])
                    | Raise _ => caught w5 [e1; e2; e3; e4; e5]
                    end
                end
            end
        end
    end.
Proof.
  destruct s as [ss br w l].
  unfold generate_response, get_sql_chain.
  run_script.
  destruct (client_error _ w) as [e0|] eqn:Hclient; [reflexivity|].
  run_script. rewrite Hclient. run_script.
  rewrite sql_template_variables, response_template_variables.
  destruct (get_table_info d w) as [[schema1|e1] w1]; run_script;
    [|rewrite <- ?app_assoc; reflexivity].
  cbn [missing_variables bind_variables]. dict_lookup. run_script.
  cbn [missing_variables bind_variables]. dict_lookup. run_script.
  rewrite sql_prompt_vars. fold (sql_prompt schema1 h).
  destruct (llm_invoke _ (sql_prompt schema1 h) w1) as [[sql|e2] w2]; run_script;
    [|rewrite <- ?app_assoc; reflexivity].
  dict_lookup. run_script.
  destruct (get_table_info d w2) as [[schema2|e3] w3];
    destruct (db_run d sql w3) as [[response|e4] w4]; run_script;
    try (rewrite <- ?app_assoc; reflexivity).
  cbn [missing_variables bind_variables]. dict_lookup. run_script.
  cbn [missing_variables bind_variables]. dict_lookup. run_script.
  rewrite narration_prompt_vars. fold (narration_prompt schema2 h sql q response).
  destruct (llm_invoke _ (narration_prompt schema2 h sql q response) w4)
    as [[answer|e5] w5]; run_script; rewrite <- ?app_assoc; reflexivity.
Qed.

Lemma events_since_logged s w evs : events_since s (logged s w evs) = evs.
Proof. unfold events_since, logged; simpl. apply drop_app_length. Qed.

Lemma events_since_same s : events_since s s = [].
Proof. unfold events_since. apply drop_all. Qed.

Lemma logged_logged s w evs w' evs' :
  logged (logged s w evs) w' evs' = logged s w' (evs ++ evs').
Proof. unfold logged; simpl. by rewrite app_assoc. Qed.

(** Case analysis on the construction of the clients and on the five calls
    a turn can make. *)
Ltac chain_cases d :=
  rewrite generate_response_run; cbv zeta;
  match goal with
  | |- context [client_error ?llm ?w0] =>
      destruct (client_error llm w0) as [?e|] eqn:?Hclient
  end;
  [ |
    match goal with
    | |- context [get_table_info d ?w0] =>
        destruct (get_table_info d w0) as [[?schema|?e] ?w]
    end;
    [ match goal with
      | |- context [llm_invoke ?llm ?p ?w0] =>
          destruct (llm_invoke llm p w0) as [[?sql|?e] ?w]
      end;
      [ match goal with
        | |- context [get_table_info d ?w0] =>
            destruct (get_table_info d w0) as [[?schema|?e] ?w]
        end;
        match goal with
        | |- context [db_run d ?sql0 ?w0] =>
            destruct (db_run d sql0 w0) as [[?response|?e] ?w]
        end;
        try match goal with
        | |- context [llm_invoke ?llm ?p ?w0] =>
            destruct (llm_invoke llm p w0) as [[?answer|?e] ?w]
        end
      | ]
    | ] ];
  cbn [fst snd]; rewrite ?events_since_logged, ?events_since_same; cbn [app].

Lemma error_message_nonempty : error_message ≠ "".
Proof. discriminate. Qed.

(** C1, as amended.  Once its two model clients are constructed,
    [generate_response] never raises: whatever the handle, the question,
    the history and the outside world, it returns a string; and whenever a
    call it makes into the database or the model fails, be it in SQL
    generation, in the execution or in the narration, the string is the
    one fixed error message, shown as an error notice as well. *)
Theorem generate_response_never_raises self q d h s :
  client_error (gemini self) (world s) = None →
  let out := generate_response self q d h s in
  (∃ answer, out.1 = Ok answer) ∧
  (existsb failed (events_since s out.2) = true →
   out.1 = Ok error_message ∧
   last (events_since s out.2) = Some (EUi (st_error error_message))).
Proof.
  intros Hc. cbv zeta. split.
  - chain_cases d; [congruence|..]; eauto.
  - chain_cases d; [congruence|..]; cbn; solve [done | discriminate].
Qed.

(** The events of a turn in which all five calls succeed: the prompt of
    each model call carries the schema text of the fetch made for it. *)
Lemma generate_response_events self q d h s :
  let out := generate_response self q d h s in
  let evs := events_since s out.2 in
  client_error (gemini self) (world s) = None →
  existsb failed evs = false →
  ∃ schema1 sql schema2 response answer,
    out.1 = Ok answer ∧
    evs = [EGetTableInfo d (Ok schema1);
           EModel (gemini self) (sql_prompt schema1 h) (Ok sql);
           EGetTableInfo d (Ok schema2);
           ERun d sql (Ok response);
           EModel (gemini self) (narration_prompt schema2 h sql q response) (Ok answer)].
Proof.
  cbv zeta. intros Hc. chain_cases d; [congruence|..]; cbn; try discriminate.
  intros _. eauto 10.
Qed.

(** C7, as amended.  The schema is never cached: an invocation whose
    clients are constructed starts with a fetch from the handle, makes no
    more model calls than schema fetches, and performs two fetches exactly
    when its SQL generation went through and one otherwise; in a turn
    without a failure each prompt carries the text of its own fetch. *)
Theorem schema_fetched_for_each_model_call self q d h s :
  client_error (gemini self) (world s) = None →
  let evs := events_since s (generate_response self q d h s).2 in
  (∃ r, head evs = Some (EGetTableInfo d r)) ∧
  count is_model_call evs ≤ count is_schema_fetch evs ∧
  count is_schema_fetch evs = (if sql_generated evs then 2 else 1) ∧
  (existsb failed evs = false →
   ∃ schema1 schema2 sql response,
     model_prompts evs = [sql_prompt schema1 h;
                          narration_prompt schema2 h sql q response] ∧
     List.filter is_schema_fetch evs
     = [EGetTableInfo d (Ok schema1); EGetTableInfo d (Ok schema2)]).
Proof.
  intros Hc. cbv zeta. split; [|split; [|split]].
  - chain_cases d; [congruence|..]; cbn; eauto.
  - chain_cases d; [congruence|..]; cbn; lia.
  - chain_cases d; [congruence|..]; reflexivity.
  - intros Hok.
    destruct (generate_response_events self q d h s Hc Hok)
      as (schema1 & sql & schema2 & response & answer & _ & ->).
    exists schema1, schema2, sql, response. split; reflexivity.
Qed.

(** C8, as amended.  Once its clients are constructed, [generate_response]
    returns a string: the fixed error message, which is not empty, when a
    call of the turn failed, and otherwise the reply of the narration
    call, unchanged. *)
Theorem generate_response_answer self q d h s :
  client_error (gemini self) (world s) = None →
  let out := generate_response self q d h s in
  let evs := events_since s out.2 in
  error_message ≠ "" ∧
  ∃ answer, out.1 = Ok answer ∧
    if existsb failed evs then answer = error_message
    else ∃ llm p, last evs = Some (EModel llm p (Ok answer)).
Proof.
  intros Hc. cbv zeta. split; [apply error_message_nonempty|].
  chain_cases d; [congruence|..]; cbn; eauto.
Qed.

(** What an invocation leaves behind: it raises only when a client cannot
    be constructed, before anything is called, and otherwise returns; in
    both cases the session and the browser are as they were. *)
Lemma generate_response_frame self q d h s :
  (∃ e, client_error (gemini self) (world s) = Some e ∧
        generate_response self q d h s = (Raise e, s)) ∨
  (client_error (gemini self) (world s) = None ∧
   ∃ answer w evs, generate_response self q d h s = (Ok answer, logged s w evs)).
Proof.
  chain_cases d; [left; eauto|..]; right; (split; [done|]); eauto.
Qed.

(** Unfolds the methods of [ChatApp] down to the calls of the Assistant. *)
Ltac run_app :=
  cbv beta iota zeta delta
    [mbind M_bind bind mret M_ret ret fmap M_fmap raise try_except gets emit
     set_session st session_chat_history session_db session_item
     set_chat_history set_db append_history truthy default from_option id
     fst snd session_state browser world log logged
     chat_history db widgets chat_input connect_clicked typed].

Lemma handle_user_query_falsy self s :
  truthy (chat_input (browser s)) = false →
  handle_user_query self s = (Ok tt, logged s (world s) [chat_input_event]).
Proof.
  destruct s as [ss [ty cl [[|c q]|]] w l]; try discriminate; reflexivity.
Qed.

Lemma handle_user_query_no_handle self s q h :
  chat_input (browser s) = Some q → q ≠ "" →
  chat_history (session_state s) = Some h →
  db (session_state s) = Some None →
  handle_user_query self s =
    (Ok tt,
     mkState (mkSession (Some (h ++ [HumanMessage q])) (Some None)
                (widgets (session_state s)))
       (browser s) (world s)
       (log s ++ [chat_input_event; EUi (st_chat_message "Human");
                  EUi (st_markdown q); EUi (st_chat_message "AI");
                  EUi (st_error "Database not connected. Please connect to the database first.")])).
Proof.
  destruct s as [[oh od wd] [ty cl oq] w l]; simpl.
  intros -> Hq -> ->. destruct q as [|c q]; [done|].
  unfold handle_user_query. run_app.
  rewrite <- !app_assoc. reflexivity.
Qed.

(** A turn with a handle: the question is appended and echoed, then the
    Assistant is called; if it raises, the run ends there, else its answer
    is shown and appended. *)
Lemma handle_user_query_turn self s q h d :
  chat_input (browser s) = Some q → q ≠ "" →
  chat_history (session_state s) = Some h →
  db (session_state s) = Some (Some d) →
  (∃ e,
     client_error (gemini (sql_assistant self)) (world s) = Some e ∧
     generate_response (sql_assistant self) q d (h ++ [HumanMessage q])
       (before_answer s h d q) = (Raise e, before_answer s h d q) ∧
     handle_user_query self s = (Raise e, before_answer s h d q)) ∨
  (client_error (gemini (sql_assistant self)) (world s) = None ∧
   ∃ answer w evs,
     generate_response (sql_assistant self) q d (h ++ [HumanMessage q])
       (before_answer s h d q)
     = (Ok answer, logged (before_answer s h d q) w evs) ∧
     handle_user_query self s =
       (Ok tt,
        mkState (mkSession (Some (h ++ [HumanMessage q; AIMessage answer]))
                   (Some (Some d)) (widgets (session_state s)))
          (browser s) w
          (log s ++ turn_opening q ++ evs ++ [EUi (st_markdown answer)]))).
Proof.
  destruct s as [[oh od wd] [ty cl oq] w l]; simpl.
  intros -> Hq -> ->. destruct q as [|c q]; [done|].
  unfold handle_user_query, before_answer, turn_opening, chat_input_event. run_app.
  rewrite <- !app_assoc. cbn [app].
  match goal with |- context [generate_response ?a ?b ?c ?e ?s0] =>
    destruct (generate_response_frame a b c e s0)
      as [(e0 & Hc & Hrun)|(Hc & answer & w' & evs & Hrun)]
  end; cbn [world] in Hc; rewrite !Hrun.
  - left. exists e0. done.
  - right. split; [exact Hc|]. exists answer, w', evs. split; [reflexivity|].
    run_app. rewrite <- !app_assoc. reflexivity.
Qed.

(** C10.  A falsy chat input ([None] or the empty string) makes
    [handle_user_query] a no-op: it returns normally, the session (history,
    handle, widget entries) and the outside world are as before, and the
    only thing logged is the rendering of the input box, so no message of
    either role is appended and the Assistant is not called. *)
Theorem empty_input_is_noop self s :
  truthy (chat_input (browser s)) = false →
  let out := handle_user_query self s in
  out.1 = Ok tt ∧
  session_state out.2 = session_state s ∧
  world out.2 = world s ∧
  events_since s out.2 = [chat_input_event] ∧
  count is_assistant_call (events_since s out.2) = 0.
Proof.
  intros Hq. cbv zeta. rewrite (handle_user_query_falsy self s Hq).
  cbn [fst snd]. rewrite events_since_logged. done.
Qed.

(** C2.  With no handle in the session, a submitted message is appended
    to the history as a user message and nothing else happens to the
    session: no assistant message is appended, the Assistant is not
    called (no schema fetch, model call or execution is logged, the
    outside world is untouched) and the user sees the not-connected
    notice. *)
Theorem no_handle_no_answer self s q h :
  chat_input (browser s) = Some q → q ≠ "" →
  chat_history (session_state s) = Some h →
  db (session_state s) = Some None →
  let out := handle_user_query self s in
  out.1 = Ok tt ∧
  chat_history (session_state out.2) = Some (h ++ [HumanMessage q]) ∧
  db (session_state out.2) = Some None ∧
  world out.2 = world s ∧
  count is_assistant_call (events_since s out.2) = 0 ∧
  last (events_since s out.2)
  = Some (EUi (st_error "Database not connected. Please connect to the database first.")).
Proof.
  intros Hq Hne Hh Hd. cbv zeta.
  rewrite (handle_user_query_no_handle self s q h Hq Hne Hh Hd).
  cbn [fst snd session_state chat_history db world].
  unfold events_since; cbn [log]. rewrite drop_app_length. done.
Qed.

(** The prompts of an invocation carry the history it was given; the
    narration prompt also binds the question, the SQL prompt has no
    placeholder for it. *)
Lemma generate_response_prompts self q d h s :
  Forall (λ p, prompt_history p = Some h ∧
               (pv_vars p !! "question" = Some (PStr q) ∨
                pv_template p = sql_template ∧ pv_vars p !! "question" = None))
    (model_prompts (events_since s (generate_response self q d h s).2)).
Proof.
  assert (Hsql : ∀ schema,
    prompt_history (sql_prompt schema h) = Some h ∧
    (pv_vars (sql_prompt schema h) !! "question" = Some (PStr q) ∨
     pv_template (sql_prompt schema h) = sql_template ∧
     pv_vars (sql_prompt schema h) !! "question" = None)).
  { intros schema. split; [|right; split]; [| reflexivity |];
      unfold prompt_history, sql_prompt; cbn [pv_vars]; dict_lookup; reflexivity. }
  assert (Hnar : ∀ schema sql response,
    prompt_history (narration_prompt schema h sql q response) = Some h ∧
    (pv_vars (narration_prompt schema h sql q response) !! "question" = Some (PStr q) ∨
     pv_template (narration_prompt schema h sql q response) = sql_template ∧
     pv_vars (narration_prompt schema h sql q response) !! "question" = None)).
  { intros schema sql response. split; [|left];
      unfold prompt_history, narration_prompt; cbn [pv_vars]; dict_lookup; reflexivity. }
  chain_cases d; unfold model_prompts; cbn [omap];
    repeat first [apply Forall_nil_2
                 | apply Forall_cons_2; [first [apply Hsql | apply Hnar]|]].
Qed.

Lemma model_prompts_app evs1 evs2 :
  model_prompts (evs1 ++ evs2) = model_prompts evs1 ++ model_prompts evs2.
Proof. unfold model_prompts. apply omap_app. Qed.

(** C9.  On a turn with a handle the user's message is appended to the
    session's history before the Assistant is called, and the call is made
    with that updated list: when [generate_response] raises, the turn ends
    with the same exception and the history already ends in the question;
    when it returns, the answer is appended after the question.  Every
    prompt the model receives in the turn carries the history ending in
    the current question, which the narration prompt also binds as
    [question]. *)
Theorem question_in_history_before_answer self s q h d :
  chat_input (browser s) = Some q → q ≠ "" →
  chat_history (session_state s) = Some h →
  db (session_state s) = Some (Some d) →
  let out := handle_user_query self s in
  let called := generate_response (sql_assistant self) q d (h ++ [HumanMessage q])
                  (before_answer s h d q) in
  match called.1 with
  | Raise e =>
      out.1 = Raise e ∧
      chat_history (session_state out.2) = Some (h ++ [HumanMessage q]) ∧
      events_since s out.2 = turn_opening q ++ events_since (before_answer s h d q) called.2
  | Ok answer =>
      out.1 = Ok tt ∧
      chat_history (session_state out.2) = Some (h ++ [HumanMessage q; AIMessage answer]) ∧
      events_since s out.2
      = turn_opening q ++ events_since (before_answer s h d q) called.2
          ++ [EUi (st_markdown answer)]
  end ∧
  Forall (λ p, prompt_history p = Some (h ++ [HumanMessage q]) ∧
               (pv_vars p !! "question" = Some (PStr q) ∨
                pv_template p = sql_template ∧ pv_vars p !! "question" = None))
    (model_prompts (events_since s out.2)).
Proof.
  intros Hq Hne Hh Hd. cbv zeta.
  pose proof (generate_response_prompts (sql_assistant self) q d
                (h ++ [HumanMessage q]) (before_answer s h d q)) as Hprompts.
  destruct (handle_user_query_turn self s q h d Hq Hne Hh Hd)
    as [(e & _ & Hgr & ->)|(_ & answer & w & evs & Hgr & ->)];
    rewrite Hgr in *; cbn [fst snd] in *.
  - rewrite events_since_same in *.
    unfold events_since, before_answer; cbn [log session_state chat_history].
    rewrite drop_app_length, app_nil_r. split; [done|]. constructor.
  - rewrite events_since_logged in *.
    unfold events_since; cbn [log session_state chat_history].
    rewrite drop_app_length. split; [done|].
    rewrite !model_prompts_app. cbn. rewrite app_nil_r. exact Hprompts.
Qed.

(** ** Connecting *)

Lemma connect_run self user password host port database s :
  let uri := spec_connection_string "mysql+mysqlconnector"
               user password host port database in
  let reply := from_uri uri (world s) in
  connect self user password host port database s =
    (match reply.1 with
     | Ok handle => Ok (mkConnector (Some handle), handle)
     | Raise e => Raise e
     end,
     logged s reply.2 [EFromUri uri reply.1]).
Proof.
  cbv zeta. unfold connect.
  change ("mysql+mysqlconnector://" +:+ user +:+ ":" +:+ password +:+ "@" +:+ host
            +:+ ":" +:+ port +:+ "/" +:+ database)
    with (spec_connection_string "mysql+mysqlconnector" user password host port database).
  generalize (spec_connection_string "mysql+mysqlconnector" user password host port database).
  intros uri. destruct s as [ss br w l]. run_script.
  destruct (from_uri uri w) as [[handle|e] w']; reflexivity.
Qed.

(** C6.  For all five strings, [connect] makes exactly one call into the
    outside world, [SQLDatabase.from_uri], with the connection string
    [mysql+mysqlconnector://<user>:<password>@<host>:<port>/<database>]
    built from the arguments as they are; it returns the handle that call
    opens (and keeps it in [self.db]), raises only what that call raises,
    and leaves the session alone. *)
Theorem connect_builds_uri self user password host port database s :
  let uri := spec_connection_string "mysql+mysqlconnector"
               user password host port database in
  let reply := from_uri uri (world s) in
  let out := connect self user password host port database s in
  out.1 = match reply.1 with
          | Ok handle => Ok (mkConnector (Some handle), handle)
          | Raise e => Raise e
          end ∧
  events_since s out.2 = [EFromUri uri reply.1] ∧
  world out.2 = reply.2 ∧
  session_state out.2 = session_state s.
Proof.
  cbv zeta. rewrite connect_run. cbn [fst snd].
  rewrite events_since_logged. done.
Qed.

(** Nothing is escaped: a separator typed into a field moves the
    boundary between fields. *)
Example connection_string_not_escaped :
  spec_connection_string "mysql+mysqlconnector" "root:admin" "x" "localhost" "3306" "chinook"
  = spec_connection_string "mysql+mysqlconnector" "root" "admin:x" "localhost" "3306" "chinook".
Proof. reflexivity. Qed.

Lemma sidebar_text_input_run label value key password s :
  sidebar_text_input label value key password s =
    (Ok (field s key value),
     mkState (mkSession (chat_history (session_state s)) (db (session_state s))
                (<[key := field s key value]> (widgets (session_state s))))
       (browser s) (world s)
       (log s ++ [EUi (st_sidebar_text_input label value key password)])).
Proof. destruct s as [[oh od wd] [ty cl oq] w l]. reflexivity. Qed.

Lemma field_after_insert s key value key' v' i w l :
  key ≠ key' →
  field (mkState (mkSession (chat_history (session_state s)) (db (session_state s))
                    (<[key' := v']> (widgets (session_state s)))) i w l)
        key value
  = field (mkState (session_state s) i w l) key value.
Proof.
  intros Hne. unfold field; cbn [browser session_state widgets].
  by rewrite lookup_insert_ne.
Qed.

Ltac run_form :=
  cbv beta iota zeta delta
    [mbind M_bind bind mret M_ret ret fmap M_fmap raise try_except gets emit
     set_session st session_item set_db external default from_option id
     fst snd session_state browser world log
     chat_history db widgets chat_input connect_clicked typed].

Lemma sidebar_run self s :
  let ss := session_state s in
  let rendered := mkSession (chat_history ss) (db ss) (sidebar_widgets s) in
  sidebar self s =
    if connect_clicked (browser s) then
      let reply := from_uri (form_uri s) (world s) in
      match reply.1 with
      | Ok handle =>
          (Ok (mkApp (app_gemini_api_key self) (mkConnector (Some handle))
                 (sql_assistant self)),
           mkState (mkSession (chat_history ss) (Some (Some handle)) (sidebar_widgets s))
             (browser s) reply.2
             (log s ++ sidebar_form ++
                [EUi (st_spinner "Connecting to database...");
                 EFromUri (form_uri s) (Ok handle);
                 EUi (st_success "Connected to the database!")]))
      | Raise e =>
          (Ok self,
           mkState rendered (browser s) reply.2
             (log s ++ sidebar_form ++
                [EUi (st_spinner "Connecting to database...");
                 EFromUri (form_uri s) (Raise e);
                 EUi (st_error ("Failed to connect: " +:+ str_of_exn e))]))
      end
    else (Ok self, mkState rendered (browser s) (world s) (log s ++ sidebar_form)).
Proof.
  cbv zeta. destruct s as [[oh od wd] [ty cl oq] w l].
  unfold sidebar, sidebar_button, sidebar_text_input, form_uri,
    sidebar_widgets, field, sidebar_form.
  destruct cl; run_form;
    repeat (progress (repeat (rewrite lookup_insert; case_decide; [try done|try done]);
                      run_form));
    [|rewrite <- !app_assoc; reflexivity].
  rewrite connect_run. run_form. unfold logged. run_form.
  match goal with |- context [from_uri ?u w] =>
    destruct (from_uri u w) as [[handle|e] w']
  end; rewrite <- !app_assoc; reflexivity.
Qed.

Lemma sidebar_connect_attempt self s :
  connect_clicked (browser s) = true →
  count is_connect (events_since s (sidebar self s).2) = 1.
Proof.
  intros Hclick. rewrite sidebar_run. cbv zeta. rewrite Hclick.
  destruct (from_uri (form_uri s) (world s)) as [[handle|e] w']; cbn [fst snd];
    unfold events_since; cbn [log]; rewrite drop_app_length; reflexivity.
Qed.

Lemma sidebar_retry self s i :
  connect_clicked i = true →
  count is_connect (events_since s (sidebar self (arriving i s)).2) = 1.
Proof.
  intros Hi. pose proof (sidebar_connect_attempt self (arriving i s) Hi) as H.
  unfold events_since in *. change (log (arriving i s)) with (log s) in H.
  exact H.
Qed.

Lemma sidebar_failed self s e w' :
  connect_clicked (browser s) = true →
  from_uri (form_uri s) (world s) = (Raise e, w') →
  sidebar self s =
    (Ok self,
     mkState (mkSession (chat_history (session_state s)) (db (session_state s))
                (sidebar_widgets s))
       (browser s) w'
       (log s ++ sidebar_form ++
          [EUi (st_spinner "Connecting to database...");
           EFromUri (form_uri s) (Raise e);
           EUi (st_error ("Failed to connect: " +:+ str_of_exn e))])).
Proof.
  intros Hclick Hraise. rewrite sidebar_run. cbv zeta.
  rewrite Hclick, Hraise. reflexivity.
Qed.

(** C5.  When the Connect action is taken and opening the connection
    raises, whatever the five fields hold, [sidebar] catches the exception
    where it calls [connect]: it returns normally, the last thing shown is
    the failure notice with the exception's text and no success notice is
    shown, [st.session_state.db] is not assigned (a session without a
    handle is still without one), the connector holds no handle, and the
    form attempts a connection again on the next Connect. *)
Theorem failed_connect_leaves_no_handle self s e w' :
  connect_clicked (browser s) = true →
  from_uri (form_uri s) (world s) = (Raise e, w') →
  let out := sidebar self s in
  out.1 = Ok self ∧
  db (session_state out.2) = db (session_state s) ∧
  (db (session_state s) = Some None → db (session_state out.2) = Some None) ∧
  chat_history (session_state out.2) = chat_history (session_state s) ∧
  last (events_since s out.2)
  = Some (EUi (st_error ("Failed to connect: " +:+ str_of_exn e))) ∧
  (EUi (st_success "Connected to the database!") ∉ events_since s out.2) ∧
  count is_connect (events_since s out.2) = 1 ∧
  ∀ i, connect_clicked i = true →
       count is_connect (events_since out.2 (sidebar self (arriving i out.2)).2) = 1.
Proof.
  intros Hclick Hraise. cbv zeta.
  pose proof (sidebar_retry self (sidebar self s).2) as Hretry.
  pose proof (sidebar_connect_attempt self s Hclick) as Hone.
  revert Hretry Hone. rewrite (sidebar_failed self s e w' Hclick Hraise).
  generalize (form_uri s) ("Failed to connect: " +:+ str_of_exn e).
  intros uri notice Hretry Hone.
  split; [reflexivity|]. split; [reflexivity|]. split; [intros H; exact H|].
  split; [reflexivity|].
  assert (Hevs : events_since s
            (Ok self,
             mkState (mkSession (chat_history (session_state s)) (db (session_state s))
                        (sidebar_widgets s)) (browser s) w'
               (log s ++ sidebar_form ++
                  [EUi (st_spinner "Connecting to database...");
                   EFromUri uri (Raise e); EUi (st_error notice)])).2
          = sidebar_form ++
              [EUi (st_spinner "Connecting to database...");
               EFromUri uri (Raise e); EUi (st_error notice)]).
  { unfold events_since. cbn [snd log]. apply drop_app_length. }
  rewrite Hevs in *. clear Hevs.
  split; [reflexivity|]. split; [|split; [exact Hone | exact Hretry]].
  unfold sidebar_form. cbn [app].
  repeat (apply not_elem_of_cons; split; [discriminate|]).
  apply not_elem_of_nil.
Qed.


(** ** A run of the script *)

Lemma display_chat_history_run s h :
  chat_history (session_state s) = Some h →
  display_chat_history s = (Ok tt, logged s (world s) (render_history h)).
Proof.
  destruct s as [[oh od wd] br w l]; cbn. intros ->.
  unfold display_chat_history. run_app.
  match goal with |- for_each _ ?body ?s0 = _ =>
    assert (Hbody : ∀ h' s', for_each h' body s'
                             = (Ok tt, logged s' (world s') (render_history h')));
    [|apply (Hbody h s0)]
  end.
  induction h' as [|m h' IH]; intros [ss' br' w' l'].
  - unfold logged; cbn. by rewrite app_nil_r.
  - cbn [for_each]. destruct m; run_app; rewrite IH; unfold logged;
      cbn [session_state browser world log render_history flat_map];
      rewrite <- !app_assoc; reflexivity.
Qed.

Lemma sidebar_frame self s :
  ∃ app' d' w' evs,
    sidebar self s =
      (Ok app',
       mkState (mkSession (chat_history (session_state s)) d' (sidebar_widgets s))
         (browser s) w' (log s ++ evs)) ∧
    sql_assistant app' = sql_assistant self ∧
    count is_assistant_call evs = 0 ∧
    model_prompts evs = [] ∧
    (d' = db (session_state s) ∨ ∃ handle, d' = Some (Some handle)).
Proof.
  rewrite sidebar_run. cbv zeta.
  destruct (connect_clicked (browser s)).
  - destruct (from_uri (form_uri s) (world s)) as [[handle|e] w']; cbn [fst snd];
      do 4 eexists; (split; [reflexivity|]); repeat split; eauto.
  - do 4 eexists. split; [reflexivity|]. repeat split; eauto.
Qed.

(** One run: the session is initialised, the page and the form are
    rendered (which may open a handle), the history is displayed, and the
    chat input is handled. *)
Lemma main_run s :
  let h0 := default [AIMessage greeting] (chat_history (session_state s)) in
  let d0 := default None (db (session_state s)) in
  ∃ app' d' wd' w' evs,
    main s =
      handle_user_query app'
        (mkState (mkSession (Some h0) (Some d') wd') (browser s) w'
           (log s ++ page_header ++ evs ++ render_history h0)) ∧
    count is_assistant_call evs = 0 ∧
    model_prompts evs = [] ∧
    (d' = d0 ∨ ∃ handle, d' = Some handle) ∧
    sql_assistant app' = mkAssistant (os_getenv "GEMINI_API_KEY" (world s)).
Proof.
  cbv zeta. destruct s as [[oh od wd] br w l].
  unfold main, run, ChatApp_init, init_session_state.
  destruct oh as [h|], od as [d|]; run_app;
    match goal with |- context [sidebar ?a ?st] =>
      destruct (sidebar_frame a st) as (app' & d' & w' & evs & Hs & Hkey & Hc & Hm & Hd)
    end;
    rewrite Hs; cbv beta iota;
    match goal with |- context [display_chat_history ?st] =>
      rewrite (display_chat_history_run st _ eq_refl)
    end;
    cbv beta iota;
    (destruct Hd as [->|[handle ->]];
     [ eexists app', _, _, w', evs | eexists app', (Some handle), _, w', evs ]);
    (split; [unfold logged, page_header; run_app; rewrite <- !app_assoc; reflexivity|]);
    repeat split; eauto.
Qed.

Lemma truthy_query i :
  truthy (chat_input i) = true → ∃ q, chat_input i = Some q ∧ q ≠ "".
Proof. destruct (chat_input i) as [[|c q]|]; try discriminate. eauto. Qed.

Lemma model_prompts_render h : model_prompts (render_history h) = [].
Proof. induction h as [|[c|c] h IH]; [done| |]; exact IH. Qed.

(** The four ways a run of the script can go, by the chat input, the
    handle and the construction of the model clients. *)
Lemma rerun_cases i s :
  let h0 := default [AIMessage greeting] (chat_history (session_state s)) in
  let d0 := default None (db (session_state s)) in
  ∃ d' wd' w' evs0,
    count is_assistant_call evs0 = 0 ∧
    model_prompts evs0 = [] ∧
    (d' = d0 ∨ ∃ handle, d' = Some handle) ∧
    let shown := log s ++ page_header ++ evs0 ++ render_history h0 in
    (truthy (chat_input i) = false ∧
     run_result i s = Ok tt ∧
     rerun i s = mkState (mkSession (Some h0) (Some d') wd') i w'
                   (shown ++ [chat_input_event]))
    ∨ (∃ q, chat_input i = Some q ∧ q ≠ "" ∧ d' = None ∧
         run_result i s = Ok tt ∧
         rerun i s =
           mkState (mkSession (Some (h0 ++ [HumanMessage q])) (Some None) wd') i w'
             (shown ++ turn_opening q ++
              [EUi (st_error "Database not connected. Please connect to the database first.")]))
    ∨ (∃ q d e,
         chat_input i = Some q ∧ q ≠ "" ∧ d' = Some d ∧
         run_result i s = Raise e ∧
         rerun i s =
           mkState (mkSession (Some (h0 ++ [HumanMessage q])) (Some (Some d)) wd') i w'
             (shown ++ turn_opening q))
    ∨ (∃ q d answer w'' evs,
         chat_input i = Some q ∧ q ≠ "" ∧ d' = Some d ∧
         run_result i s = Ok tt ∧
         Forall (λ p, prompt_history p = Some (h0 ++ [HumanMessage q]))
           (model_prompts evs) ∧
         rerun i s =
           mkState (mkSession (Some (h0 ++ [HumanMessage q; AIMessage answer]))
                      (Some (Some d)) wd') i w''
             (shown ++ turn_opening q ++ evs ++ [EUi (st_markdown answer)])).
Proof.
  cbv zeta. unfold rerun, run_result, arriving.
  destruct (main_run (mkState (session_state s) i (world s) (log s)))
    as (app' & d' & wd' & w' & evs0 & Hmain & Hc & Hm & Hd & _).
  cbn [session_state browser log] in Hmain, Hd. rewrite Hmain. clear Hmain.
  exists d', wd', w', evs0. split; [exact Hc|]. split; [exact Hm|]. split; [exact Hd|].
  set (h0 := default [AIMessage greeting] (chat_history (session_state s))).
  set (s4 := mkState _ _ _ _).
  destruct (truthy (chat_input i)) eqn:Hq.
  - right. destruct (truthy_query i Hq) as (q & Hi & Hne).
    destruct d' as [d|].
    + right.
      destruct (handle_user_query_turn app' s4 q h0 d Hi Hne eq_refl eq_refl)
        as [(e & _ & _ & ->)|(_ & answer & w'' & evs & Hgr & ->)].
      * left. exists q, d, e. repeat split; try done.
      * right. exists q, d, answer, w'', evs. repeat split; try done.
        pose proof (generate_response_prompts (sql_assistant app') q d
                      (h0 ++ [HumanMessage q]) (before_answer s4 h0 d q)) as Hp.
        rewrite Hgr in Hp. cbn [snd] in Hp. rewrite events_since_logged in Hp.
        eapply Forall_impl; [exact Hp|]. intros p [Hh _]. exact Hh.
    + left. exists q.
      rewrite (handle_user_query_no_handle app' s4 q h0 Hi Hne eq_refl eq_refl).
      repeat split; try done.
  - left. rewrite (handle_user_query_falsy app' s4 Hq).
    split; [reflexivity|]. split; [reflexivity|]. cbn [snd].
    unfold logged, s4; cbn [session_state widgets browser world log].
    rewrite <- !app_assoc. reflexivity.
Qed.

(** ** Sessions *)

Lemma transcript_length qs answers :
  length answers = length qs → length (transcript qs answers) = 2 * length qs.
Proof.
  revert answers. induction qs as [|q qs IH]; intros [|a answers]; cbn; try done.
  intros [= Hlen]. rewrite (IH _ Hlen). lia.
Qed.

Lemma dialogue_answered qs answers :
  dialogue qs (Some <$> answers) = transcript qs answers.
Proof.
  revert answers. induction qs as [|q qs IH]; intros [|a answers]; cbn; try done.
  by rewrite IH.
Qed.

Lemma dialogue_app qs1 replies1 qs2 replies2 :
  length replies1 = length qs1 →
  dialogue (qs1 ++ qs2) (replies1 ++ replies2)
  = dialogue qs1 replies1 ++ dialogue qs2 replies2.
Proof.
  revert replies1. induction qs1 as [|q qs1 IH]; intros [|r replies1]; cbn; try done.
  intros [= Hlen]. rewrite (IH _ Hlen). by rewrite <- app_assoc.
Qed.

Lemma questions_cons i rest : questions (i :: rest) = questions [i] ++ questions rest.
Proof. unfold questions. cbn. by destruct (truthy (chat_input i)), (chat_input i). Qed.

(** What one run does to the history, the handle and the log. *)
Lemma rerun_summary i s :
  let h0 := default [AIMessage greeting] (chat_history (session_state s)) in
  ∃ evs replies,
    chat_history (session_state (rerun i s))
    = Some (h0 ++ dialogue (questions [i]) replies) ∧
    length replies = length (questions [i]) ∧
    log (rerun i s) = log s ++ evs ∧
    Forall (λ p, ∃ hist, prompt_history p = Some hist ∧ h0 `prefix_of` hist)
      (model_prompts evs) ∧
    (connected s → connected (rerun i s)) ∧
    ((truthy (chat_input i) = true → connected (rerun i s) ∧ run_result i s = Ok tt) →
     ∃ answers, replies = Some <$> answers).
Proof.
  cbv zeta.
  destruct (rerun_cases i s) as (d' & wd' & w' & evs0 & Hc & Hm & Hd & Hcases).
  cbv zeta in Hcases.
  assert (Hconn : connected s → ∃ d, d' = Some d).
  { intros [d Hs]. rewrite Hs in Hd. destruct Hd as [->|[handle ->]]; eauto. }
  assert (Hasked : ∀ q, chat_input i = Some q → q ≠ "" → questions [i] = [q]).
  { intros q Hi Hne. unfold questions. cbn. rewrite Hi. by destruct q. }
  destruct Hcases as [(Hq & Hres & ->)|[(q & Hi & Hne & -> & Hres & ->)|
                     [(q & d & e & Hi & Hne & -> & Hres & ->)|
                      (q & d & a & w'' & evs & Hi & Hne & -> & Hres & Hp & ->)]]];
    cbn [session_state chat_history db log].
  - eexists _, []. assert (Hqs : questions [i] = []).
    { unfold questions. cbn. by rewrite Hq. }
    rewrite Hqs. cbn [dialogue length]. rewrite app_nil_r.
    split; [done|]. split; [done|]. split; [rewrite <- !app_assoc; reflexivity|].
    rewrite !model_prompts_app, Hm, model_prompts_render.
    split; [constructor|]. split.
    { intros Hs. destruct (Hconn Hs) as [d ->]. by exists d. }
    intros _. by exists [].
  - eexists _, [None]. rewrite (Hasked q Hi Hne). cbn [dialogue length app].
    split; [done|]. split; [done|]. split; [rewrite <- !app_assoc; reflexivity|].
    rewrite !model_prompts_app, Hm, model_prompts_render.
    split; [constructor|]. split.
    { intros Hs. destruct (Hconn Hs) as [d ?]. discriminate. }
    intros Hdone. destruct Hdone as [[d Hd'] _]; [|discriminate].
    rewrite Hi. by destruct q.
  - eexists _, [None]. rewrite (Hasked q Hi Hne). cbn [dialogue length app].
    split; [done|]. split; [done|]. split; [rewrite <- !app_assoc; reflexivity|].
    rewrite !model_prompts_app, Hm, model_prompts_render.
    split; [constructor|]. split; [intros _; by exists d|].
    intros Hdone. destruct Hdone as [_ Hok]; [|congruence].
    rewrite Hi. by destruct q.
  - eexists _, [Some a]. rewrite (Hasked q Hi Hne). cbn [dialogue length app].
    split; [done|]. split; [done|]. split; [rewrite <- !app_assoc; reflexivity|].
    rewrite !model_prompts_app, Hm, model_prompts_render.
    cbn [model_prompts omap turn_opening chat_input_event app].
    rewrite app_nil_r. split.
    { eapply Forall_impl; [exact Hp|]. intros p Hh. eexists. split; [exact Hh|].
      by apply prefix_app_r. }
    split; [intros _; by exists d|].
    intros _. by exists [a].
Qed.

(** What a sequence of runs does to an initialised session. *)
Lemma session_summary interactions s h :
  chat_history (session_state s) = Some h →
  ∃ evs replies,
    chat_history (session_state (session interactions s))
    = Some (h ++ dialogue (questions interactions) replies) ∧
    length replies = length (questions interactions) ∧
    log (session interactions s) = log s ++ evs ∧
    Forall (λ p, ∃ hist, prompt_history p = Some hist ∧ h `prefix_of` hist)
      (model_prompts evs) ∧
    (connected s → connected (session interactions s)) ∧
    (turns_complete interactions s → ∃ answers, replies = Some <$> answers).
Proof.
  revert s h. induction interactions as [|i rest IH]; intros s h Hh.
  - exists [], []. rewrite !app_nil_r. cbn [session].
    split; [done|]. split; [done|]. split; [done|]. split; [constructor|].
    split; [done|]. intros _. by exists [].
  - cbn [session].
    destruct (rerun_summary i s) as (evs1 & replies1 & Hh1 & Hlen1 & Hl1 & Hp1 & Hc1 & Ht1).
    rewrite Hh in Hh1, Hp1. cbn [default from_option id] in Hh1, Hp1.
    destruct (IH (rerun i s) _ Hh1)
      as (evs2 & replies2 & Hh2 & Hlen2 & Hl2 & Hp2 & Hc2 & Ht2).
    exists (evs1 ++ evs2), (replies1 ++ replies2).
    rewrite questions_cons, (dialogue_app _ _ _ _ Hlen1).
    rewrite Hh2, Hl2, Hl1, <- !app_assoc. split; [done|].
    split; [by rewrite !length_app, Hlen1, Hlen2|]. split; [done|].
    rewrite model_prompts_app. split.
    { apply Forall_app. split; [exact Hp1|].
      eapply Forall_impl; [exact Hp2|]. intros p (hist & Hhist & Hpre).
      exists hist. split; [exact Hhist|].
      etrans; [|exact Hpre]. by apply prefix_app_r. }
    split; [auto|].
    intros [Hi Hrest]. destruct (Ht1 Hi) as [answers1 ->].
    destruct (Ht2 Hrest) as [answers2 ->].
    exists (answers1 ++ answers2). by rewrite fmap_app.
Qed.

(** The history after at least one run, from any state. *)
Lemma session_accounting i rest s :
  let h0 := default [AIMessage greeting] (chat_history (session_state s)) in
  let after := session (i :: rest) s in
  (∃ replies,
     length replies = length (questions (i :: rest)) ∧
     chat_history (session_state after)
     = Some (h0 ++ dialogue (questions (i :: rest)) replies)) ∧
  (turns_complete (i :: rest) s →
   ∃ answers,
     length answers = length (questions (i :: rest)) ∧
     chat_history (session_state after)
     = Some (h0 ++ transcript (questions (i :: rest)) answers)).
Proof.
  cbv zeta. cbn [session turns_complete].
  destruct (rerun_summary i s)
    as (evs1 & replies1 & Hh1 & Hlen1 & _ & _ & _ & Ht1).
  revert Hh1 Ht1.
  generalize (default [AIMessage greeting] (chat_history (session_state s))).
  generalize (rerun i s) (run_result i s).
  intros s1 r1 h0 Hh1 Ht1.
  destruct (session_summary rest s1 _ Hh1)
    as (evs2 & replies2 & Hh2 & Hlen2 & _ & _ & _ & Ht2).
  rewrite questions_cons.
  assert (Hall : chat_history (session_state (session rest s1))
                 = Some (h0 ++ dialogue (questions [i] ++ questions rest)
                                  (replies1 ++ replies2)))
    by (rewrite Hh2, (dialogue_app _ _ _ _ Hlen1), <- app_assoc; reflexivity).
  split.
  - exists (replies1 ++ replies2). split; [|exact Hall].
    by rewrite !length_app, Hlen1, Hlen2.
  - intros [Hi Hrest]. destruct (Ht1 Hi) as [answers1 ->].
    destruct (Ht2 Hrest) as [answers2 ->].
    rewrite <- fmap_app, dialogue_answered in Hall.
    rewrite !length_fmap in Hlen1, Hlen2.
    exists (answers1 ++ answers2). split; [|exact Hall].
    by rewrite !length_app, Hlen1, Hlen2.
Qed.

(** C3.  The history starts as the one greeting and only ever grows at
    its end.  After any interactions with a page, the history is the
    greeting followed, in order of submission, by each submitted question
    and, where the turn produced one, its answer; when all N submitted
    messages were handled with a handle in the session and to the end of
    their run, each question is followed by its answer and the history
    has exactly 1 + 2N messages; and whatever the state, a run of the
    script keeps the messages it finds as a prefix of the history it
    leaves. *)
Theorem history_append_only w interactions :
  interactions ≠ [] →
  let after := session interactions (new_session w) in
  (∃ replies,
     length replies = length (questions interactions) ∧
     chat_history (session_state after)
     = Some (AIMessage greeting :: dialogue (questions interactions) replies)) ∧
  (turns_complete interactions (new_session w) →
   ∃ answers,
     length answers = length (questions interactions) ∧
     chat_history (session_state after)
     = Some (AIMessage greeting :: transcript (questions interactions) answers) ∧
     length (AIMessage greeting :: transcript (questions interactions) answers)
     = 1 + 2 * length (questions interactions)) ∧
  (∀ s h i, chat_history (session_state s) = Some h →
            ∃ added, chat_history (session_state (rerun i s)) = Some (h ++ added)).
Proof.
  intros Hne. cbv zeta. destruct interactions as [|i rest]; [done|]. clear Hne.
  destruct (session_accounting i rest (new_session w)) as [Hany Hdone].
  split; [exact Hany|]. split.
  - intros Hturns. destruct (Hdone Hturns) as (answers & Hlen & Hh).
    exists answers. split; [exact Hlen|]. split; [exact Hh|].
    cbn [length]. by rewrite (transcript_length _ _ Hlen).
  - intros s h i' Hh.
    destruct (rerun_summary i' s) as (evs & replies & Hh' & _).
    rewrite Hh in Hh'. eauto.
Qed.

(** C4.  When [generate_response] returns the fixed error message on a
    turn, that string is appended to the history as the assistant's
    message of the turn, and from then on it stays there: after any
    further interactions the history still begins with the messages up
    to and including it, and every prompt sent to the model in those
    interactions carries a history that contains it. *)
Theorem error_reply_enters_history self s q h d :
  chat_input (browser s) = Some q → q ≠ "" →
  chat_history (session_state s) = Some h →
  db (session_state s) = Some (Some d) →
  (generate_response (sql_assistant self) q d (h ++ [HumanMessage q])
     (before_answer s h d q)).1 = Ok error_message →
  let after := (handle_user_query self s).2 in
  chat_history (session_state after)
  = Some (h ++ [HumanMessage q; AIMessage error_message]) ∧
  ∀ later, ∃ more,
    chat_history (session_state (session later after))
    = Some (h ++ [HumanMessage q; AIMessage error_message] ++ more) ∧
    Forall (λ p, ∃ hist, prompt_history p = Some hist ∧ AIMessage error_message ∈ hist)
      (model_prompts (events_since after (session later after))).
Proof.
  intros Hq Hne Hh Hd Herr. cbv zeta.
  destruct (handle_user_query_turn self s q h d Hq Hne Hh Hd)
    as [(e & _ & Hgr & _)|(_ & answer & w' & evs & Hgr & Hrun)];
    rewrite Hgr in Herr; cbn [fst] in Herr; [discriminate|].
  injection Herr as ->.
  rewrite Hrun. cbn [snd]. set (after := mkState _ _ _ _).
  assert (Hafter : chat_history (session_state after)
                   = Some (h ++ [HumanMessage q; AIMessage error_message])) by done.
  split; [exact Hafter|]. intros later.
  destruct (session_summary later after _ Hafter)
    as (evs' & replies & Hh' & _ & Hl & Hp & _).
  eexists. split; [by rewrite Hh', <- app_assoc|].
  unfold events_since. rewrite Hl, drop_app_length.
  eapply Forall_impl; [exact Hp|]. intros p (hist & Hhist & [k ->]).
  exists (((h ++ [HumanMessage q; AIMessage error_message]) ++ k)).
  split; [exact Hhist|]. set_solver.
Qed.

(** ** Further properties of the Assistant *)

(** X7.  The only statement a turn executes is the text the model
    returned for the SQL prompt, exactly as returned, on the handle of the
    turn; nothing is executed when that call did not return. *)
Theorem sql_executed_verbatim self q d h s :
  let evs := events_since s (generate_response self q d h s).2 in
  executed_sql evs = take 1 (model_replies evs) ∧
  Forall (λ e, match e with
               | ERun d' _ _ | EGetTableInfo d' _ => d' = d
               | _ => True
               end) evs.
Proof.
  cbv zeta. split.
  - chain_cases d; reflexivity.
  - chain_cases d; repeat constructor.
Qed.

(** X8.  What one invocation may call: no connection is opened, the
    schema is fetched at most twice, the model is asked at most twice,
    at most one statement is executed and only after a model call, and
    the model is asked a second time only when the execution and the
    second schema fetch both returned. *)
Theorem turn_call_budget self q d h s :
  let evs := events_since s (generate_response self q d h s).2 in
  count is_connect evs = 0 ∧
  count is_schema_fetch evs ≤ 2 ∧
  count is_model_call evs ≤ 2 ∧
  count is_execution evs ≤ 1 ∧
  count is_execution evs ≤ count is_model_call evs ∧
  (count is_model_call evs = 2 →
   ∃ sql response schema,
     ERun d sql (Ok response) ∈ evs ∧ evs !! 2 = Some (EGetTableInfo d (Ok schema))).
Proof.
  cbv zeta.
  chain_cases d; cbn; repeat split; try lia; try discriminate.
  all: intros _; do 3 eexists; split; [|reflexivity];
    rewrite !elem_of_cons; eauto 10.
Qed.

(** X9.  [generate_response] leaves [st.session_state] alone.  When a
    model client cannot be constructed, the constructor's exception
    reaches the caller before anything is called or shown.  Otherwise the
    invocation returns, and its only Streamlit call is the error notice:
    exactly one [st.error] with the fixed message when a call into the
    database or the model failed, none when all of them returned. *)
Theorem error_notice_iff_failure self q d h s :
  let out := generate_response self q d h s in
  let evs := events_since s out.2 in
  session_state out.2 = session_state s ∧
  ui_calls evs = (if existsb failed evs then [st_error error_message] else []) ∧
  match client_error (gemini self) (world s) with
  | Some e => out = (Raise e, s)
  | None => ∃ answer, out.1 = Ok answer
  end.
Proof.
  cbv zeta. rewrite generate_response_run. cbv zeta.
  destruct (client_error (gemini self) (world s)) as [e|].
  { rewrite events_since_same. done. }
  destruct (get_table_info d (world s)) as [[schema1|e1] w1].
  2: { cbn [fst snd]. rewrite events_since_logged. split; [done|]. split; [done|]. eauto. }
  destruct (llm_invoke _ _ w1) as [[sql|e2] w2].
  2: { cbn [fst snd]. rewrite events_since_logged. split; [done|]. split; [done|]. eauto. }
  destruct (get_table_info d w2) as [[schema2|e3] w3];
    destruct (db_run d sql w3) as [[response|e4] w4].
  2-4: cbn [fst snd]; rewrite events_since_logged; (split; [done|]); (split; [done|]); eauto.
  destruct (llm_invoke _ _ w4) as [[answer|e5] w5];
    cbn [fst snd]; rewrite events_since_logged; (split; [done|]); (split; [done|]); eauto.
Qed.

(** X10.  Every model call of a turn goes through the same client: model
    gemini-1.5-pro with the key the assistant was built with. *)
Theorem model_client_fixed self q d h s :
  Forall (λ llm, llm = mkLLM "gemini-1.5-pro" (gemini_api_key self))
    (model_clients (events_since s (generate_response self q d h s).2)).
Proof.
  chain_cases d; repeat constructor.
Qed.

(** X5.  The SQL chain that [get_sql_chain] returns once its client is
    constructed, on an input that has a [chat_history]: it fetches the
    schema, then asks the model once, with the SQL template bound to that
    schema and to the input's history and to nothing else of the input,
    and returns the model's text unchanged; a failed fetch ends the chain
    before the model is asked. *)
Theorem sql_chain_run self d input history s0 s :
  input !! "chat_history" = Some history →
  client_error (gemini self) (world s0) = None →
  ∃ chain,
    get_sql_chain self d s0 = (Ok chain, s0) ∧
    let fetch := get_table_info d (world s) in
    chain input s =
      match fetch.1 with
      | Raise e => (Raise e, logged s fetch.2 [EGetTableInfo d (Raise e)])
      | Ok schema =>
          let prompt := mkPrompt sql_template
                          (<["schema" := PStr schema]> (<["chat_history" := history]> ∅)) in
          let reply := llm_invoke (gemini self) prompt fetch.2 in
          (reply.1,
           logged s reply.2 [EGetTableInfo d (Ok schema);
                             EModel (gemini self) prompt reply.1])
      end.
Proof.
  intros Hh Hc. destruct s0 as [ss0 br0 w0 l0]. unfold gemini in Hc. cbn [world] in Hc.
  unfold get_sql_chain. run_script. rewrite Hc.
  eexists. split; [reflexivity|]. cbv zeta. destruct s as [ss br w l].
  run_script. rewrite sql_template_variables.
  destruct (get_table_info d w) as [[schema|e] w1]; [|reflexivity].
  cbn [missing_variables bind_variables].
  rewrite insert_empty, <- insert_union_singleton_l.
  rewrite lookup_insert_eq, lookup_insert_ne by done. rewrite Hh.
  run_script. rewrite sql_prompt_vars.
  destruct (llm_invoke _ _ w1) as [[sql|e] w2];
    cbn [fst snd]; rewrite <- !app_assoc; reflexivity.
Qed.

(** X6.  The SQL chain that [get_sql_chain] returns, on an input without
    [chat_history]: the schema is still fetched first, then formatting the
    prompt raises the template's [KeyError] for its expected variables and
    the input extended with the schema, and the model is never asked. *)
Theorem sql_chain_missing_history self d input s0 s :
  input !! "chat_history" = None →
  client_error (gemini self) (world s0) = None →
  ∃ chain,
    get_sql_chain self d s0 = (Ok chain, s0) ∧
    let out := chain input s in
    let fetch := get_table_info d (world s) in
    events_since s out.2 = [EGetTableInfo d fetch.1] ∧
    count is_model_call (events_since s out.2) = 0 ∧
    world out.2 = fetch.2 ∧
    out.1 = match fetch.1 with
            | Ok schema =>
                Raise (prompt_key_error ["chat_history"; "schema"]
                         (<["schema" := PStr schema]> input))
            | Raise e => Raise e
            end.
Proof.
  intros Hh Hc. destruct s0 as [ss0 br0 w0 l0]. unfold gemini in Hc. cbn [world] in Hc.
  unfold get_sql_chain. run_script. rewrite Hc.
  eexists. split; [reflexivity|]. cbv zeta. destruct s as [ss br w l].
  unfold events_since. run_script. rewrite sql_template_variables.
  destruct (get_table_info d w) as [[schema|e] w1]; cbn [fst snd log world].
  2: { rewrite drop_app_length. done. }
  cbn [missing_variables bind_variables].
  rewrite insert_empty, <- insert_union_singleton_l.
  rewrite lookup_insert_eq, lookup_insert_ne by done. rewrite Hh.
  run_script. rewrite drop_app_length. done.
Qed.

(** ** Further properties of the shell *)

Lemma render_history_roles h : rendered_roles (render_history h) = role_of <$> h.
Proof. induction h as [|[c|c] h IH]; [done| |]; cbn; by rewrite <- IH. Qed.

Lemma render_history_bodies h : rendered_bodies (render_history h) = content_of <$> h.
Proof. induction h as [|[c|c] h IH]; [done| |]; cbn; by rewrite <- IH. Qed.

Lemma render_history_length h : length (render_history h) = 2 * length h.
Proof.
  unfold render_history. induction h as [|[c|c] h IH]; [done| |];
    cbn [flat_map app length]; rewrite IH; lia.
Qed.

(** X1.  [display_chat_history] shows the whole history, message by
    message in the order of the history: for each message it opens one
    container under the role of the message's class and writes the
    message's content into it ([st.markdown] for the assistant,
    [st.write] for the user) before it goes on to the next; it changes
    neither the session nor the outside world. *)
Theorem display_shows_history s h :
  chat_history (session_state s) = Some h →
  let out := display_chat_history s in
  let evs := events_since s out.2 in
  out.1 = Ok tt ∧
  session_state out.2 = session_state s ∧
  world out.2 = world s ∧
  evs = flat_map (λ m, [EUi (st_chat_message (role_of m));
                        EUi (match m with
                             | AIMessage c => st_markdown c
                             | HumanMessage c => st_write c
                             end)]) h ∧
  rendered_roles evs = role_of <$> h ∧
  rendered_bodies evs = content_of <$> h ∧
  length evs = 2 * length h ∧
  count is_assistant_call evs + count is_connect evs = 0.
Proof.
  intros Hh. cbv zeta. rewrite (display_chat_history_run s h Hh).
  cbn [fst snd]. rewrite events_since_logged.
  split; [done|]. split; [done|]. split; [done|].
  split.
  { clear. unfold render_history. induction h as [|[c|c] h IH]; [done| |];
      cbn [flat_map role_of app]; by rewrite IH. }
  split; [apply render_history_roles|]. split; [apply render_history_bodies|].
  split; [apply render_history_length|].
  clear. induction h as [|[c|c] h IH]; [done| |]; exact IH.
Qed.

(** X2.  [init_session_state] creates the two entries only where they are
    missing: a history that is present is kept as it is, a handle entry
    that is present is kept as it is, a missing history becomes the one
    greeting and a missing handle entry becomes [None]; nothing else
    changes, and running it again changes nothing. *)
Theorem init_session_state_preserves s :
  let out := init_session_state s in
  out.1 = Ok tt ∧
  chat_history (session_state out.2)
  = Some (default [AIMessage greeting] (chat_history (session_state s))) ∧
  db (session_state out.2) = Some (default None (db (session_state s))) ∧
  widgets (session_state out.2) = widgets (session_state s) ∧
  world out.2 = world s ∧ log out.2 = log s ∧
  init_session_state out.2 = (Ok tt, out.2).
Proof.
  cbv zeta. destruct s as [[[h|] [d|] wd] br w l]; repeat split.
Qed.

(** X3.  When Connect is pressed and the connection opens, [sidebar]
    stores the new handle in the session, whatever the entry held before,
    shows the success notice and no failure notice, keeps the history, and
    returns the app with the handle in its connector. *)
Theorem connect_success_stores_handle self s handle w' :
  connect_clicked (browser s) = true →
  from_uri (form_uri s) (world s) = (Ok handle, w') →
  let out := sidebar self s in
  let evs := events_since s out.2 in
  out.1 = Ok (mkApp (app_gemini_api_key self) (mkConnector (Some handle))
                (sql_assistant self)) ∧
  db (session_state out.2) = Some (Some handle) ∧
  chat_history (session_state out.2) = chat_history (session_state s) ∧
  world out.2 = w' ∧
  last evs = Some (EUi (st_success "Connected to the database!")) ∧
  count is_connect evs = 1 ∧
  count is_assistant_call evs = 0 ∧
  (∀ m, EUi (st_error m) ∉ evs).
Proof.
  intros Hclick Hopen. cbv zeta. rewrite sidebar_run. cbv zeta.
  rewrite Hclick, Hopen. cbn [fst snd session_state db chat_history world].
  unfold events_since. cbn [log]. rewrite drop_app_length.
  generalize (form_uri s). intros uri.
  split; [done|]. split; [done|]. split; [done|]. split; [done|].
  split; [done|]. split; [done|]. split; [done|].
  intros m. unfold sidebar_form. cbn [app].
  repeat (apply not_elem_of_cons; split; [discriminate|]).
  apply not_elem_of_nil.
Qed.

(** X4.  [sidebar] never raises, and the only failure notice it can show
    is the one for a connection that did not open: a [st.error] appears
    only when Connect was pressed and [from_uri] raised, and its text is
    [Failed to connect: ] followed by that exception's text. *)
Theorem failure_notice_comes_from_from_uri self s :
  let out := sidebar self s in
  (∃ app', out.1 = Ok app') ∧
  ∀ m, EUi (st_error m) ∈ events_since s out.2 →
       connect_clicked (browser s) = true ∧
       ∃ e w', from_uri (form_uri s) (world s) = (Raise e, w') ∧
               m = "Failed to connect: " +:+ str_of_exn e.
Proof.
  cbv zeta. rewrite sidebar_run. cbv zeta.
  destruct (connect_clicked (browser s)).
  - destruct (from_uri (form_uri s) (world s)) as [[handle|e] w'] eqn:Hopen;
      cbn [fst snd]; (split; [eauto|]); intros m;
      unfold events_since; cbn [log]; rewrite drop_app_length;
      generalize (form_uri s); intros uri;
      unfold sidebar_form; cbn [app]; rewrite !elem_of_cons, elem_of_nil;
      intros Hin; repeat (destruct Hin as [Hin|Hin]; try discriminate); try done.
    injection Hin as ->. eauto.
  - cbn [fst snd]. split; [eauto|]. intros m.
    unfold events_since; cbn [log]; rewrite drop_app_length.
    unfold sidebar_form; rewrite !elem_of_cons, elem_of_nil.
    intros Hin; repeat (destruct Hin as [Hin|Hin]; try discriminate); done.
Qed.

(** ** Further properties of a run and of a session *)

Lemma handle_user_query_keeps self s h d' :
  chat_history (session_state s) = Some h →
  db (session_state s) = Some d' →
  db (session_state (handle_user_query self s).2) = Some d'.
Proof.
  intros Hh Hd. destruct (truthy (chat_input (browser s))) eqn:Hq.
  - destruct (truthy_query _ Hq) as (q & Hi & Hne). destruct d' as [d|].
    + destruct (handle_user_query_turn self s q h d Hi Hne Hh Hd)
        as [(e & _ & _ & ->)|(_ & answer & w' & evs & _ & ->)]; done.
    + rewrite (handle_user_query_no_handle self s q h Hi Hne Hh Hd). done.
  - rewrite (handle_user_query_falsy self s Hq). done.
Qed.


(** A run in which Connect is not pressed. *)
Lemma main_run_quiet s :
  connect_clicked (browser s) = false →
  let h0 := default [AIMessage greeting] (chat_history (session_state s)) in
  let d0 := default None (db (session_state s)) in
  let key := os_getenv "GEMINI_API_KEY" (world s) in
  main s =
    handle_user_query (mkApp key DatabaseConnector_init (mkAssistant key))
      (mkState (mkSession (Some h0) (Some d0) (sidebar_widgets s)) (browser s) (world s)
         (log s ++ page_header ++ sidebar_form ++ render_history h0)).
Proof.
  intros Hclick. cbv zeta. destruct s as [[oh od wd] br w l].
  cbn [browser] in Hclick.
  unfold main, run, ChatApp_init, init_session_state.
  destruct oh as [h|], od as [d|]; run_app;
    rewrite sidebar_run; cbv zeta; cbn [browser]; rewrite Hclick; cbv beta iota;
    match goal with |- context [display_chat_history ?st] =>
      rewrite (display_chat_history_run st _ eq_refl)
    end;
    cbv beta iota; unfold logged, page_header; run_app;
    rewrite <- !app_assoc; reflexivity.
Qed.

Lemma rerun_quiet_db i s :
  connect_clicked i = false →
  db (session_state (rerun i s)) = Some (default None (db (session_state s))).
Proof.
  intros Hclick. unfold rerun.
  rewrite (main_run_quiet (mkState (session_state s) i (world s) (log s)) Hclick).
  cbv zeta. cbn [session_state browser world log].
  eapply handle_user_query_keeps; reflexivity.
Qed.

Lemma session_connected interactions s :
  connected s → connected (session interactions s).
Proof.
  revert s. induction interactions as [|i rest IH]; intros s Hc; [done|].
  cbn [session]. apply IH.
  destruct (rerun_summary i s) as (evs & replies & _ & _ & _ & _ & Hkeep & _). auto.
Qed.

(** X12.  The script never drops a handle: a session that holds one still
    holds one after any interactions, and it is the same one as long as
    Connect is not pressed. *)
Theorem session_keeps_handle interactions s d :
  db (session_state s) = Some (Some d) →
  connected (session interactions s) ∧
  (Forall (λ i, connect_clicked i = false) interactions →
   db (session_state (session interactions s)) = Some (Some d)).
Proof.
  intros Hd. split; [apply session_connected; by exists d|].
  revert s Hd. induction interactions as [|i rest IH]; intros s Hd Hquiet; [done|].
  apply Forall_cons in Hquiet as [Hi Hrest]. cbn [session].
  apply IH; [|exact Hrest]. rewrite (rerun_quiet_db i s Hi), Hd. done.
Qed.

(** X13.  A run in which nothing is pressed or submitted only renders:
    it makes no call to the database or the model, leaves the outside
    world as it is, keeps the (initialised) history and handle entry, and
    logs the page header, the settings form, the history and the input
    box, in this order. *)
Theorem idle_rerun_only_renders i s :
  connect_clicked i = false →
  truthy (chat_input i) = false →
  let h0 := default [AIMessage greeting] (chat_history (session_state s)) in
  let after := rerun i s in
  chat_history (session_state after) = Some h0 ∧
  db (session_state after) = Some (default None (db (session_state s))) ∧
  world after = world s ∧
  events_since s after
  = page_header ++ sidebar_form ++ render_history h0 ++ [chat_input_event].
Proof.
  intros Hclick Hq. cbv zeta. unfold rerun.
  rewrite (main_run_quiet (mkState (session_state s) i (world s) (log s)) Hclick).
  cbv zeta. cbn [session_state browser world log].
  rewrite handle_user_query_falsy by exact Hq.
  cbn [snd]. unfold logged, events_since.
  cbn [session_state chat_history db world log].
  rewrite <- !app_assoc, drop_app_length. done.
Qed.

Lemma generate_response_failed_tail self q d h s :
  let out := generate_response self q d h s in
  existsb failed (events_since s out.2) = true →
  out.1 = Ok error_message ∧
  ∃ calls, events_since s out.2 = calls ++ [EUi (st_error error_message)].
Proof.
  cbv zeta. chain_cases d; cbn [existsb failed is_raise orb]; try discriminate;
    intros _; (split; [reflexivity|]).
  - by eexists [_; _; _; _; _].
  - by eexists [_; _; _; _].
  - by eexists [_; _; _; _].
  - by eexists [_; _; _; _].
  - by eexists [_; _].
  - by eexists [_].
Qed.

(** X14.  On a turn with a handle in which a call into the database or
    the model fails (the model clients having been constructed), the user
    is shown the fixed error message twice, first as the error notice
    [generate_response] raises itself and then again as the assistant's
    reply, and these are the last two things the turn renders. *)
Theorem failed_turn_shows_error_twice self s q h d :
  chat_input (browser s) = Some q → q ≠ "" →
  chat_history (session_state s) = Some h →
  db (session_state s) = Some (Some d) →
  existsb failed
    (events_since (before_answer s h d q)
       (generate_response (sql_assistant self) q d (h ++ [HumanMessage q])
          (before_answer s h d q)).2) = true →
  ∃ earlier,
    events_since s (handle_user_query self s).2
    = earlier ++ [EUi (st_error error_message); EUi (st_markdown error_message)].
Proof.
  intros Hq Hne Hh Hd Hfail.
  destruct (generate_response_failed_tail _ _ _ _ _ Hfail) as (Hans & calls & Hcalls).
  destruct (handle_user_query_turn self s q h d Hq Hne Hh Hd)
    as [(e & _ & Hgr & _)|(_ & answer & w' & evs & Hgr & ->)];
    rewrite Hgr in Hans, Hcalls; cbn [fst snd] in Hans, Hcalls; [discriminate|].
  injection Hans as ->. rewrite events_since_logged in Hcalls. subst evs.
  exists (turn_opening q ++ calls).
  unfold events_since. cbn [snd log]. rewrite drop_app_length, <- !app_assoc. done.
Qed.
End Facts.


(** * Concrete runs

    The theorems above at inputs of the scripted world, and the runs that
    settle the statements the program does not satisfy as worded. *)

Import Scripted.

(** A turn whose first model call is rejected returns the error message. *)
Lemma generate_response_never_raises_witness :
  client_error (gemini assistant)
    (world (running seeded (Some handle) (ask question) quota_exhausted)) = None ∧
  existsb failed
    (events_since (running seeded (Some handle) (ask question) quota_exhausted)
       (generate_response assistant question handle seeded
          (running seeded (Some handle) (ask question) quota_exhausted)).2) = true ∧
  (generate_response assistant question handle seeded
     (running seeded (Some handle) (ask question) quota_exhausted)).1 = Ok error_message.
Proof.
  split; [reflexivity|]. split; [vm_compute; reflexivity|].
  apply (generate_response_never_raises assistant question handle seeded
           (running seeded (Some handle) (ask question) quota_exhausted) eq_refl).
  vm_compute; reflexivity.
Defined.

(** C1 as worded fails: without an API key the client of the
    SQL-generation chain cannot be constructed, and the constructor's
    exception, raised in [get_sql_chain] before the [try], reaches the
    caller of [generate_response]. *)
Lemma keyless_invocation_raises :
  (generate_response keyless_assistant question handle seeded
     (running seeded (Some handle) (ask question) keyless)).1
  = Raise (Exception "Your default credentials were not found.").
Proof. vm_compute. reflexivity. Qed.

(** Without a handle the question is recorded and nothing is answered. *)
Lemma no_handle_no_answer_witness :
  chat_input (browser (running seeded None (ask question) healthy)) = Some question ∧
  question ≠ "" ∧
  chat_history (session_state (running seeded None (ask question) healthy)) = Some seeded ∧
  db (session_state (running seeded None (ask question) healthy)) = Some None ∧
  chat_history
    (session_state (handle_user_query app (running seeded None (ask question) healthy)).2)
  = Some (seeded ++ [HumanMessage question]).
Proof.
  split; [reflexivity|]. split; [discriminate|]. split; [reflexivity|].
  split; [reflexivity|].
  apply (no_handle_no_answer app (running seeded None (ask question) healthy)
           question seeded); [reflexivity | discriminate | reflexivity | reflexivity].
Defined.

(** Connect, then two questions: five messages. *)
Lemma history_append_only_witness :
  [press_connect; ask question; ask question] ≠ [] ∧
  turns_complete [press_connect; ask question; ask question] (new_session healthy) ∧
  ∃ answers,
    length answers = length (questions [press_connect; ask question; ask question]) ∧
    chat_history
      (session_state (session [press_connect; ask question; ask question]
                        (new_session healthy)))
    = Some (AIMessage greeting
            :: transcript (questions [press_connect; ask question; ask question]) answers) ∧
    length (AIMessage greeting
            :: transcript (questions [press_connect; ask question; ask question]) answers)
    = 1 + 2 * length (questions [press_connect; ask question; ask question]).
Proof.
  assert (Hturns : turns_complete [press_connect; ask question; ask question]
                     (new_session healthy)).
  { cbn [turns_complete].
    split; [intros Hq; vm_compute in Hq; discriminate|].
    split; [intros _; split; [exists handle|]; vm_compute; reflexivity|].
    split; [intros _; split; [exists handle|]; vm_compute; reflexivity|].
    exact I. }
  split; [discriminate|]. split; [exact Hturns|].
  apply (history_append_only healthy [press_connect; ask question; ask question]);
    [discriminate | exact Hturns].
Defined.

(** A rejected model call puts the error message in the history. *)
Lemma error_reply_enters_history_witness :
  (generate_response (sql_assistant app) question handle (seeded ++ [HumanMessage question])
     (before_answer (running seeded (Some handle) (ask question) quota_exhausted)
        seeded handle question)).1 = Ok error_message ∧
  chat_history
    (session_state
       (handle_user_query app (running seeded (Some handle) (ask question) quota_exhausted)).2)
  = Some (seeded ++ [HumanMessage question; AIMessage error_message]).
Proof.
  split; [vm_compute; reflexivity|].
  apply (error_reply_enters_history app
           (running seeded (Some handle) (ask question) quota_exhausted) question seeded handle);
    [reflexivity | discriminate | reflexivity | reflexivity | vm_compute; reflexivity].
Defined.

(** An unreachable server leaves the session without a handle. *)
Lemma failed_connect_leaves_no_handle_witness :
  connect_clicked (browser (running seeded None press_connect unreachable)) = true ∧
  from_uri (form_uri (running seeded None press_connect unreachable)) unreachable
  = (Raise (Exception "Can't connect to MySQL server"),
     mkReplies [] [] [] [] (Some "key")) ∧
  db (session_state (sidebar app (running seeded None press_connect unreachable)).2)
  = Some None.
Proof.
  split; [reflexivity|]. split; [reflexivity|].
  apply (failed_connect_leaves_no_handle app
           (running seeded None press_connect unreachable)
           (Exception "Can't connect to MySQL server")
           (mkReplies [] [] [] [] (Some "key")));
    reflexivity.
Defined.

(** With a handle, the question is in the history the model receives. *)
Lemma question_in_history_before_answer_witness :
  chat_input (browser (running seeded (Some handle) (ask question) healthy)) = Some question ∧
  db (session_state (running seeded (Some handle) (ask question) healthy))
  = Some (Some handle) ∧
  Forall (λ p, prompt_history p = Some (seeded ++ [HumanMessage question]) ∧
               (pv_vars p !! "question" = Some (PStr question) ∨
                pv_template p = sql_template ∧ pv_vars p !! "question" = None))
    (model_prompts
       (events_since (running seeded (Some handle) (ask question) healthy)
          (handle_user_query app (running seeded (Some handle) (ask question) healthy)).2)).
Proof.
  split; [reflexivity|]. split; [reflexivity|].
  apply (question_in_history_before_answer app
           (running seeded (Some handle) (ask question) healthy) question seeded handle);
    [reflexivity | discriminate | reflexivity | reflexivity].
Defined.

(** Submitting the empty string changes nothing. *)
Lemma empty_input_is_noop_witness :
  truthy (chat_input (browser (running seeded (Some handle) (ask "") healthy))) = false ∧
  session_state (handle_user_query app (running seeded (Some handle) (ask "") healthy)).2
  = session_state (running seeded (Some handle) (ask "") healthy).
Proof.
  split; [reflexivity|].
  apply (empty_input_is_noop app (running seeded (Some handle) (ask "") healthy)).
  reflexivity.
Defined.

(** A turn that goes through fetches the schema twice. *)
Lemma schema_fetched_for_each_model_call_witness :
  client_error (gemini assistant)
    (world (running seeded (Some handle) (ask question) healthy)) = None ∧
  count is_schema_fetch
    (events_since (running seeded (Some handle) (ask question) healthy)
       (generate_response assistant question handle seeded
          (running seeded (Some handle) (ask question) healthy)).2)
  = (if sql_generated
          (events_since (running seeded (Some handle) (ask question) healthy)
             (generate_response assistant question handle seeded
                (running seeded (Some handle) (ask question) healthy)).2)
     then 2 else 1).
Proof.
  split; [reflexivity|].
  apply (schema_fetched_for_each_model_call assistant question handle seeded
           (running seeded (Some handle) (ask question) healthy) eq_refl).
Defined.

(** C7 as worded fails: when the model rejects the SQL-generation call,
    the invocation has fetched the schema once, not twice. *)
Lemma one_fetch_when_sql_generation_fails :
  count is_schema_fetch
    (events_since (running seeded (Some handle) (ask question) quota_exhausted)
       (generate_response assistant question handle seeded
          (running seeded (Some handle) (ask question) quota_exhausted)).2)
  ≠ 2.
Proof. vm_compute. discriminate. Qed.

(** A turn that goes through returns a string. *)
Lemma generate_response_answer_witness :
  client_error (gemini assistant)
    (world (running seeded (Some handle) (ask question) healthy)) = None ∧
  error_message ≠ "".
Proof.
  split; [reflexivity|].
  apply (generate_response_answer assistant question handle seeded
           (running seeded (Some handle) (ask question) healthy) eq_refl).
Defined.

(** C8 as worded fails: when the narration comes back empty, so does the
    answer. *)
Lemma empty_narration_is_returned :
  (generate_response assistant question handle seeded
     (running seeded (Some handle) (ask question) silent_narrator)).1 = Ok "".
Proof. vm_compute. reflexivity. Qed.

(** The history of three messages is shown in three containers. *)
Lemma display_shows_history_witness :
  chat_history
    (session_state (running (seeded ++ [HumanMessage question]) (Some handle) (ask "") healthy))
  = Some (seeded ++ [HumanMessage question]) ∧
  rendered_roles
    (events_since (running (seeded ++ [HumanMessage question]) (Some handle) (ask "") healthy)
       (display_chat_history
          (running (seeded ++ [HumanMessage question]) (Some handle) (ask "") healthy)).2)
  = role_of <$> (seeded ++ [HumanMessage question]).
Proof.
  split; [reflexivity|].
  apply (display_shows_history
           (running (seeded ++ [HumanMessage question]) (Some handle) (ask "") healthy)
           (seeded ++ [HumanMessage question])).
  reflexivity.
Defined.

(** Pressing Connect against a reachable server stores the handle. *)
Lemma connect_success_stores_handle_witness :
  connect_clicked (browser (running seeded None press_connect healthy)) = true ∧
  from_uri (form_uri (running seeded None press_connect healthy)) healthy
  = (Ok handle, (from_uri (form_uri (running seeded None press_connect healthy)) healthy).2) ∧
  db (session_state (sidebar app (running seeded None press_connect healthy)).2)
  = Some (Some handle).
Proof.
  split; [reflexivity|]. split; [reflexivity|].
  apply (connect_success_stores_handle app (running seeded None press_connect healthy)
           handle
           (from_uri (form_uri (running seeded None press_connect healthy)) healthy).2);
    reflexivity.
Defined.

(** The SQL chain on the input of a turn. *)
Lemma sql_chain_run_witness :
  chain_input question seeded !! "chat_history" = Some (PMessages seeded) ∧
  client_error (gemini assistant)
    (world (running seeded (Some handle) (ask question) healthy)) = None ∧
  ∃ chain,
    get_sql_chain assistant handle (running seeded (Some handle) (ask question) healthy)
    = (Ok chain, running seeded (Some handle) (ask question) healthy).
Proof.
  split; [vm_compute; reflexivity|]. split; [reflexivity|].
  destruct (sql_chain_run assistant handle (chain_input question seeded) (PMessages seeded)
              (running seeded (Some handle) (ask question) healthy)
              (running seeded (Some handle) (ask question) healthy))
    as [chain [Hbuilt _]]; [vm_compute; reflexivity | reflexivity |].
  exists chain. exact Hbuilt.
Defined.

(** The SQL chain on an empty input. *)
Lemma sql_chain_missing_history_witness :
  (∅ : gmap string pyval) !! "chat_history" = None ∧
  client_error (gemini assistant)
    (world (running seeded (Some handle) (ask question) healthy)) = None ∧
  ∃ chain,
    get_sql_chain assistant handle (running seeded (Some handle) (ask question) healthy)
    = (Ok chain, running seeded (Some handle) (ask question) healthy).
Proof.
  split; [reflexivity|]. split; [reflexivity|].
  destruct (sql_chain_missing_history assistant handle ∅
              (running seeded (Some handle) (ask question) healthy)
              (running seeded (Some handle) (ask question) healthy))
    as [chain [Hbuilt _]]; [reflexivity | reflexivity |].
  exists chain. exact Hbuilt.
Defined.

(** A question asked with a handle leaves the handle in place. *)
Lemma session_keeps_handle_witness :
  db (session_state (running seeded (Some handle) (ask question) healthy))
  = Some (Some handle) ∧
  connected (session [ask question] (running seeded (Some handle) (ask question) healthy)).
Proof.
  split; [reflexivity|].
  apply (session_keeps_handle [ask question]
           (running seeded (Some handle) (ask question) healthy) handle).
  reflexivity.
Defined.

(** Loading the page. *)
Lemma idle_rerun_only_renders_witness :
  connect_clicked (mkInteraction ∅ false None) = false ∧
  truthy (chat_input (mkInteraction ∅ false None)) = false ∧
  world (rerun (mkInteraction ∅ false None) (new_session healthy)) = healthy.
Proof.
  split; [reflexivity|]. split; [reflexivity|].
  apply (idle_rerun_only_renders (mkInteraction ∅ false None) (new_session healthy));
    reflexivity.
Defined.

(** A rejected model call is shown as a notice and as the reply. *)
Lemma failed_turn_shows_error_twice_witness :
  existsb failed
    (events_since
       (before_answer (running seeded (Some handle) (ask question) quota_exhausted)
          seeded handle question)
       (generate_response (sql_assistant app) question handle
          (seeded ++ [HumanMessage question])
          (before_answer (running seeded (Some handle) (ask question) quota_exhausted)
             seeded handle question)).2) = true ∧
  ∃ earlier,
    events_since (running seeded (Some handle) (ask question) quota_exhausted)
      (handle_user_query app
         (running seeded (Some handle) (ask question) quota_exhausted)).2
    = earlier ++ [EUi (st_error error_message); EUi (st_markdown error_message)].
Proof.
  split; [vm_compute; reflexivity|].
  apply (failed_turn_shows_error_twice app
           (running seeded (Some handle) (ask question) quota_exhausted)
           question seeded handle);
    [reflexivity | discriminate | reflexivity | reflexivity | vm_compute; reflexivity].
Defined.
